(** * aristotle-mcp: the tool adapter of [main.py]

  A shallow embedding of the six tools and the two resources that [main.py]
  registers with [FastMCP], and the proofs of their response contracts.

  Python values are modelled as follows.
  - [str] is [string]; a character stands for the code point of the same
    number (the model covers code points below 256).
  - [Optional[str]] is [option string]; the truth test [if x:] of such a
    value is [truthy].
  - An exception is a class together with its [str()]; what can raise
    returns a [result]. [except Exception] catches the classes that derive
    from [Exception] and lets the others pass.
  - Module state ([monitored_projects]), the file system and the remote
    service are threaded through a state-and-exception monad. A raised
    exception keeps the state reached so far, as in Python.
  - The [dict] built by an endpoint is an association list in insertion
    order, which is the order [json.dumps] prints.
  - An endpoint is a coroutine; the model runs it from its call to its
    return, one endpoint at a time.

  The client library [aristotlelib] is not part of the sources. Its four
  operations are the fields of the class [Client]; every theorem holds for
  every instance. The module [Double] is one instance, a scripted stand-in
  on which the theorems are run.

  Layout: [Py] (exceptions, the monad), [Os] (paths, files, temporary
  directories), [Json] ([json.dumps] and [json.loads]), [Aristotle] (the
  client interface), [Adapter] (the endpoints of [main.py]), [Double]; then
  the properties, from strings up to the endpoints, and the runs on the
  double. *)

From Stdlib Require Import ZArith Ascii.
From stdpp Require Import gmap strings list.

(** ** Exceptions and results *)

Module Py.

(** The exception classes the model tells apart. [KeyboardInterrupt] and
    [CancelledError] derive from [BaseException] only; the others derive
    from [Exception]. *)
Inductive exn_class :=
| KeyboardInterrupt
| CancelledError
| Exception
| OSError
| FileNotFoundError
| IsADirectoryError
| NotADirectoryError
| FileExistsError.

(** An exception object: its class and the text [str(e)]. *)
Record exn := mk_exn { exn_cls : exn_class; exn_str : string }.

(** [isinstance(e, Exception)], the test of [except Exception]. *)
Definition isinstance_Exception (e : exn) : bool :=
  match exn_cls e with
  | KeyboardInterrupt | CancelledError => false
  | _ => true
  end.

Inductive result (A : Type) :=
| Return (a : A)
| Raise (e : exn).
Arguments Return {A} a.
Arguments Raise {A} e.

(** The truth value of an [Optional[str]]: [None] and [""] are false. *)
Definition truthy (o : option string) : bool :=
  match o with
  | Some s => negb (bool_decide (s = ""))
  | None => false
  end.

(** [sep.join(l)] *)
Fixpoint join (sep : string) (l : list string) : string :=
  match l with
  | [] => ""
  | [x] => x
  | x :: l' => x +:+ sep +:+ join sep l'
  end.

(** The one-character string of a line feed. *)
Definition LF : string := String (ascii_of_nat 10) "".

(** [sub in s] *)
Definition contains (sub s : string) : Prop :=
  exists pre post, s = pre +:+ sub +:+ post.

(** State and exceptions. *)
Definition M (S A : Type) : Type := S -> result A * S.

Definition ret {S A} (a : A) : M S A := fun s => (Return a, s).

Definition bind {S A B} (c : M S A) (k : A -> M S B) : M S B :=
  fun s =>
    match c s with
    | (Return a, s') => k a s'
    | (Raise e, s') => (Raise e, s')
    end.

Definition raise {S A} (e : exn) : M S A := fun s => (Raise e, s).

Definition gets {S A} (f : S -> A) : M S A := fun s => (Return (f s), s).

Definition modify {S} (f : S -> S) : M S unit := fun s => (Return tt, f s).

(** [try: body  except Exception as e: handler(e)]. An exception that is
    not an instance of [Exception] passes through. *)
Definition try_except_Exception {S A} (body : M S A) (handler : exn -> M S A)
  : M S A :=
  fun s =>
    match body s with
    | (Return a, s') => (Return a, s')
    | (Raise e, s') =>
        if isinstance_Exception e then handler e s' else (Raise e, s')
    end.

End Py.
Export Py.

Declare Scope py_scope.
Delimit Scope py_scope with py.
Notation "x <- c ;; k" := (bind c (fun x => k))
(at level 100, c at next level, right associativity) : py_scope.
Notation "c ;; k" := (bind c (fun _ => k))
(at level 100, right associativity) : py_scope.
Open Scope py_scope.

(** ** Paths and the file system ([pathlib], [tempfile]) *)

Module Os.

Inductive node :=
| RegFile (content : string)
| Directory.

(** The part of the operating system the adapter touches: the nodes of the
    file system by absolute path, the working directory of the process, and
    the names [tempfile] will draw next. Paths are plain: no [..], no
    doubled or trailing separator. *)
Record os_state := mk_os {
  nodes : gmap string node;
  cwd : string;
  tmp_names : list string
}.

Definition set_nodes (f : gmap string node -> gmap string node) (o : os_state)
  : os_state :=
  {| nodes := f (nodes o); cwd := cwd o; tmp_names := tmp_names o |}.

Fixpoint ends_with_slash (s : string) : bool :=
  match s with
  | "" => false
  | String c "" => bool_decide (c = "/"%char)
  | String _ s' => ends_with_slash s'
  end.

Fixpoint has_slash (s : string) : bool :=
  match s with
  | "" => false
  | String c s' => bool_decide (c = "/"%char) || has_slash s'
  end.

(** [a / b] of [pathlib]. *)
Definition path_join (a b : string) : string :=
  if String.prefix "/" b then b
  else if bool_decide (b = "") then a
  else if ends_with_slash a then a +:+ b
  else a +:+ "/" +:+ b.

(** [str(Path(p).absolute())] *)
Definition path_absolute (o : os_state) (p : string) : string :=
  path_join (cwd o) p.

(** What stands before the last separator of [s]. *)
Fixpoint before_last_slash (s : string) : string :=
  match s with
  | "" => ""
  | String c s' => if has_slash s' then String c (before_last_slash s') else ""
  end.

(** [str(Path(p).parent)] for an absolute [p]. *)
Definition parent (p : string) : string :=
  let d := before_last_slash p in
  if bool_decide (d = "") then "/" else d.

(** [p] is [d] or lies below it. *)
Definition path_under (d p : string) : bool :=
  bool_decide (p = d) || String.prefix (d +:+ "/") p.

Definition os_error (cls : exn_class) (errno what p : string) : exn :=
  mk_exn cls ("[Errno " +:+ errno +:+ "] " +:+ what +:+ ": '" +:+ p +:+ "'").

(** [Path(p).exists()] *)
Definition path_exists (p : string) (o : os_state) : bool :=
  bool_decide (is_Some (nodes o !! path_absolute o p)).

(** [Path(p).read_text()] *)
Definition read_text (p : string) (o : os_state) : result string :=
  match nodes o !! path_absolute o p with
  | Some (RegFile content) => Return content
  | Some Directory => Raise (os_error IsADirectoryError "21" "Is a directory" p)
  | None => Raise (os_error FileNotFoundError "2" "No such file or directory" p)
  end.

(** [Path(p).write_text(content)]: the file is created or replaced when
    [p] is not a directory and the directory it goes into exists. *)
Definition write_text (p content : string) (o : os_state)
  : result unit * os_state :=
  let a := path_absolute o p in
  match nodes o !! a with
  | Some Directory =>
      (Raise (os_error IsADirectoryError "21" "Is a directory" p), o)
  | _ =>
      match nodes o !! parent a with
      | Some Directory =>
          (Return tt, set_nodes (insert a (RegFile content)) o)
      | Some (RegFile _) =>
          (Raise (os_error NotADirectoryError "20" "Not a directory" p), o)
      | None =>
          (Raise (os_error FileNotFoundError "2" "No such file or directory" p), o)
      end
  end.

(** The first name of the supply that is free, as an absolute path, and the
    rest of the supply. *)
Fixpoint pick_tmp_name (o : os_state) (names : list string)
  : option (string * list string) :=
  match names with
  | [] => None
  | name :: rest =>
      let d := path_absolute o name in
      match nodes o !! d with
      | Some _ => pick_tmp_name o rest
      | None => Some (d, rest)
      end
  end.

(** [tempfile.mkdtemp()]: names are tried until one is free; the directory
    is made under that name, and its absolute path returned. *)
Definition mkdtemp (o : os_state) : result string * os_state :=
  match pick_tmp_name o (tmp_names o) with
  | None =>
      (Raise (mk_exn FileExistsError
                "[Errno 17] No usable temporary directory name found"),
       {| nodes := nodes o; cwd := cwd o; tmp_names := [] |})
  | Some (d, rest) =>
      let o' := {| nodes := nodes o; cwd := cwd o; tmp_names := rest |} in
      match nodes o !! parent d with
      | Some Directory => (Return d, set_nodes (insert d Directory) o')
      | Some (RegFile _) =>
          (Raise (os_error NotADirectoryError "20" "Not a directory" d), o')
      | None =>
          (Raise (os_error FileNotFoundError "2" "No such file or directory" d), o')
      end
  end.

(** [shutil.rmtree(d)], the cleanup of a [TemporaryDirectory]. *)
Definition rmtree (d : string) (o : os_state) : os_state :=
  set_nodes (filter (fun kv => path_under d (fst kv) = false)) o.

End Os.
Export Os.

(** ** JSON values and [json.dumps(_, indent=2)] *)

Module Json.

#[local] Set Warnings "-register-all".

Inductive json :=
| JNull
| JStr (s : string)
| JList (l : list json)
| JDict (d : list (string * json)).

(** A [dict] with [str] keys, in insertion order. *)
Abbreviation dict := (list (string * json)).

Fixpoint dict_get (k : string) (d : dict) : option json :=
  match d with
  | [] => None
  | (k', v) :: d' => if bool_decide (k' = k) then Some v else dict_get k d'
  end.

(** [d[k] = v]: an existing key keeps its place, a new key goes last. *)
Fixpoint dict_set (k : string) (v : json) (d : dict) : dict :=
  match d with
  | [] => [(k, v)]
  | (k', v') :: d' =>
      if bool_decide (k' = k) then (k, v) :: d' else (k', v') :: dict_set k v d'
  end.

Definition dict_keys (d : dict) : list string := d.*1.

(** [None] prints as [null]. *)
Definition of_optional (o : option string) : json :=
  match o with
  | Some s => JStr s
  | None => JNull
  end.

Definition DQUOTE : ascii := "034"%char.
Definition BACKSLASH : ascii := "092"%char.

Definition hex_digit (n : N) : ascii :=
  ascii_of_N (if (n <? 10)%N then 48 + n else 87 + n)%N.

(** The escape of one character with [ensure_ascii]: the quote, the
    backslash and the characters outside [' '..'~'] are escaped. *)
Definition escape_char (c : ascii) : string :=
  let n := N_of_ascii c in
  if (n =? 34)%N then String BACKSLASH (String DQUOTE "")
  else if (n =? 92)%N then String BACKSLASH (String BACKSLASH "")
  else if (n =? 10)%N then String BACKSLASH "n"
  else if (n =? 13)%N then String BACKSLASH "r"
  else if (n =? 9)%N then String BACKSLASH "t"
  else if (n =? 8)%N then String BACKSLASH "b"
  else if (n =? 12)%N then String BACKSLASH "f"
  else if ((32 <=? n) && (n <=? 126))%N then String c ""
  else String BACKSLASH
         ("u00" +:+ String (hex_digit (n / 16)) (String (hex_digit (n mod 16)) "")).

Fixpoint escape (s : string) : string :=
  match s with
  | "" => ""
  | String c s' => escape_char c +:+ escape s'
  end.

Definition encode_str (s : string) : string :=
  String DQUOTE (escape s +:+ String DQUOTE "").

Fixpoint spaces (n : nat) : string :=
  match n with
  | O => ""
  | S n' => " " +:+ spaces n'
  end.

(** A line feed and the indentation of nesting depth [level]. *)
Definition newline_indent (indent level : nat) : string :=
  LF +:+ spaces (indent * level).

Fixpoint encode (indent level : nat) (j : json) : string :=
  match j with
  | JNull => "null"
  | JStr s => encode_str s
  | JList [] => "[]"
  | JList l =>
      "[" +:+ newline_indent indent (S level)
      +:+ join ("," +:+ newline_indent indent (S level))
            (map (encode indent (S level)) l)
      +:+ newline_indent indent level +:+ "]"
  | JDict [] => "{}"
  | JDict d =>
      "{" +:+ newline_indent indent (S level)
      +:+ join ("," +:+ newline_indent indent (S level))
            (map (fun kv => encode_str (fst kv) +:+ ": "
                            +:+ encode indent (S level) (snd kv)) d)
      +:+ newline_indent indent level +:+ "}"
  end.

(** [json.dumps(j, indent=indent)] *)
Definition dumps (j : json) (indent : nat) : string := encode indent 0 j.

(** *** Reading a response: [json.loads]

    The reader covers what the adapter prints: [null], strings, lists and
    objects. It is what a caller does with a response, and the theorems on
    the members of a response are stated through it. *)

Definition is_ws (c : ascii) : bool :=
  let n := N_of_ascii c in
  ((n =? 32) || (n =? 10) || (n =? 13) || (n =? 9))%N.

Fixpoint skip_ws (s : string) : string :=
  match s with
  | "" => ""
  | String c s' => if is_ws c then skip_ws s' else s
  end.

Definition hex_value (c : ascii) : option N :=
  let n := N_of_ascii c in
  if ((48 <=? n) && (n <=? 57))%N then Some (n - 48)%N
  else if ((97 <=? n) && (n <=? 102))%N then Some (n - 87)%N
  else if ((65 <=? n) && (n <=? 70))%N then Some (n - 55)%N
  else None.

(** The code point of the four hex digits of an escape. *)
Definition hex4 (a b c d : ascii) : option N :=
  x ← hex_value a; y ← hex_value b; z ← hex_value c; t ← hex_value d;
  Some (((x * 16 + y) * 16 + z) * 16 + t)%N.

(** The character a short escape stands for. *)
Definition unescape (c : ascii) : option ascii :=
  let n := N_of_ascii c in
  if (n =? 34)%N then Some DQUOTE
  else if (n =? 92)%N then Some BACKSLASH
  else if (n =? 47)%N then Some "/"%char
  else if (n =? 110)%N then Some (ascii_of_N 10)
  else if (n =? 114)%N then Some (ascii_of_N 13)
  else if (n =? 116)%N then Some (ascii_of_N 9)
  else if (n =? 98)%N then Some (ascii_of_N 8)
  else if (n =? 102)%N then Some (ascii_of_N 12)
  else None.

Definition cons_char (c : ascii) (r : option (string * string))
  : option (string * string) :=
  match r with
  | Some (s, rest) => Some (String c s, rest)
  | None => None
  end.

(** Reads a string literal after its opening quote: the text up to the
    closing quote, unescaped, and what follows the literal. A control
    character must be escaped; a code point from 256 on is outside the
    model. *)
Fixpoint scan_string (s : string) : option (string * string) :=
  match s with
  | "" => None
  | String c s' =>
      if (N_of_ascii c =? 34)%N then Some ("", s')
      else if (N_of_ascii c =? 92)%N then
        match s' with
        | "" => None
        | String e s'' =>
            if (N_of_ascii e =? 117)%N then
              match s'' with
              | String h1 (String h2 (String h3 (String h4 s3))) =>
                  match hex4 h1 h2 h3 h4 with
                  | Some n =>
                      if (n <? 256)%N
                      then cons_char (ascii_of_N n) (scan_string s3)
                      else None
                  | None => None
                  end
              | _ => None
              end
            else
              match unescape e with
              | Some c' => cons_char c' (scan_string s'')
              | None => None
              end
        end
      else if (N_of_ascii c <? 32)%N then None
      else cons_char c (scan_string s')
  end.

(** [s] without the prefix [p], when it starts with [p]. *)
Fixpoint strip_prefix (p s : string) : option string :=
  match p, s with
  | "", _ => Some s
  | String a p', String b s' =>
      if bool_decide (a = b) then strip_prefix p' s' else None
  | String _ _, "" => None
  end.

(** The [dict] a sequence of members makes: a later member with the key
    of an earlier one replaces its value. *)
Definition dict_of (members : list (string * json)) : dict :=
  foldl (fun d kv => dict_set (fst kv) (snd kv) d) [] members.

(** A value at the head of [s], and the rest of [s]. [parse_items] reads
    the elements of a list up to its bracket, [parse_members] the members
    of an object up to its brace. *)
Fixpoint parse (fuel : nat) (s : string) : option (json * string) :=
  match fuel with
  | O => None
  | S fuel' =>
      match s with
      | "" => None
      | String c s' =>
          if (N_of_ascii c =? 34)%N then
            match scan_string s' with
            | Some (text, rest) => Some (JStr text, rest)
            | None => None
            end
          else if (N_of_ascii c =? 110)%N then
            match strip_prefix "ull" s' with
            | Some rest => Some (JNull, rest)
            | None => None
            end
          else if (N_of_ascii c =? 91)%N then
            match strip_prefix "]" (skip_ws s') with
            | Some rest => Some (JList [], rest)
            | None =>
                match parse_items fuel' (skip_ws s') with
                | Some (l, rest) => Some (JList l, rest)
                | None => None
                end
            end
          else if (N_of_ascii c =? 123)%N then
            match strip_prefix "}" (skip_ws s') with
            | Some rest => Some (JDict [], rest)
            | None =>
                match parse_members fuel' (skip_ws s') with
                | Some (ms, rest) => Some (JDict (dict_of ms), rest)
                | None => None
                end
            end
          else None
      end
  end
with parse_items (fuel : nat) (s : string) : option (list json * string) :=
  match fuel with
  | O => None
  | S fuel' =>
      match parse fuel' s with
      | Some (v, rest) =>
          match skip_ws rest with
          | String c rest' =>
              if (N_of_ascii c =? 44)%N then
                match parse_items fuel' (skip_ws rest') with
                | Some (l, rest'') => Some (v :: l, rest'')
                | None => None
                end
              else if (N_of_ascii c =? 93)%N then Some ([v], rest')
              else None
          | "" => None
          end
      | None => None
      end
  end
with parse_members (fuel : nat) (s : string)
  : option (list (string * json) * string) :=
  match fuel with
  | O => None
  | S fuel' =>
      match s with
      | String q s' =>
          if (N_of_ascii q =? 34)%N then
            match scan_string s' with
            | Some (k, rest) =>
                match strip_prefix ":" (skip_ws rest) with
                | Some rest1 =>
                    match parse fuel' (skip_ws rest1) with
                    | Some (v, rest2) =>
                        match skip_ws rest2 with
                        | String c rest3 =>
                            if (N_of_ascii c =? 44)%N then
                              match parse_members fuel' (skip_ws rest3) with
                              | Some (ms, rest4) => Some ((k, v) :: ms, rest4)
                              | None => None
                              end
                            else if (N_of_ascii c =? 125)%N
                            then Some ([(k, v)], rest3)
                            else None
                        | "" => None
                        end
                    | None => None
                    end
                | None => None
                end
            | None => None
            end
          else None
      | "" => None
      end
  end.

(** [json.loads(s)]: one value, with white space around it and nothing
    else. *)
Definition loads (s : string) : option json :=
  match parse (S (String.length s)) (skip_ws s) with
  | Some (j, rest) => if bool_decide (skip_ws rest = "") then Some j else None
  | None => None
  end.

(** The member [k] of a response that is a JSON object. *)
Definition response_field (k : string) (response : string) : option json :=
  match loads response with
  | Some (JDict d) => dict_get k d
  | _ => None
  end.

(** The values the status endpoints store: strings and [null]. *)
Definition flat (v : json) : bool :=
  match v with
  | JNull | JStr _ => true
  | _ => false
  end.

(** One member of an object as [encode] prints it. *)
Definition member (indent level : nat) (kv : string * json) : string :=
  encode_str (fst kv) +:+ ": " +:+ encode indent (S level) (snd kv).

(** An object that [loads] reads back as it is: flat members, keys that
    differ pairwise. *)
Definition plain (d : dict) : Prop :=
  Forall (fun kv => flat (snd kv) = true) d /\ NoDup (dict_keys d).

End Json.
Export Json.

(** ** The client library [aristotlelib.project] *)

Module Aristotle.

(** [ProjectInputType], with the two members [main.py] names. *)
Inductive ProjectInputType :=
| FORMAL_LEAN
| INFORMAL.

(** Modelled from the spec: the enumeration [ProjectStatus] of
    [aristotlelib], which is not part of the sources. The spec gives its
    members as submitted, running, complete and failed; [main.py] names
    only [COMPLETE]. *)
Inductive ProjectStatus :=
| SUBMITTED
| RUNNING
| COMPLETE
| FAILED.

#[export] Instance ProjectStatus_eq_dec : EqDecision ProjectStatus.
Proof. solve_decision. Defined.

(** Modelled from the spec: the attributes of a [Project] the adapter
    reads. [datetime] is the type of its timestamps. *)
Record Project {datetime : Type} := mk_Project {
  project_id : string;
  status : ProjectStatus;
  created_at : datetime;
  last_updated_at : datetime;
  file_name : option string;
  description : option string
}.
Arguments Project datetime : clear implicits.

(** The keyword arguments of [Project.prove_from_file]; an argument the
    call leaves out is [None]. *)
Record SubmitRequest := mk_SubmitRequest {
  input_file_path : option string;
  input_content : option string;
  project_input_type : ProjectInputType;
  formal_input_context : option string;
  wait_for_completion : bool
}.

(** What the adapter takes from outside: timestamps with their two
    renderings, the value of a status, and the four operations of the
    client, each a transition of the remote service's state. The
    submission reads the file system; the retrieval of a solution may
    change it. *)
Class Client := {
  datetime : Type;
  isoformat : datetime -> string;
  datetime_str : datetime -> string;
  status_value : ProjectStatus -> string;
  Service : Type;
  Project_prove_from_file :
    SubmitRequest -> gmap string node -> Service -> result string * Service;
  Project_from_id :
    string -> Service -> result (Project datetime) * Service;
  Project_list_projects :
    Z -> Service -> result (list (Project datetime) * option string) * Service;
  Project_get_solution :
    Project datetime -> string -> gmap string node -> Service ->
    result unit * gmap string node * Service
}.

End Aristotle.
Export Aristotle.

(** ** The adapter *)

Module Adapter.
Section WithClient.

Context `{Client}.

(** One invocation of the client, as the trace records it. *)
Inductive Call :=
| CallProveFromFile (req : SubmitRequest)
| CallFromId (project_id : string)
| CallListProjects (limit : Z)
| CallGetSolution (project : Project datetime) (output_path : string).

(** The request context [ctx] of a tool call. *)
Inductive Context := RequestContext.

(** The state an endpoint runs in: the operating system, the module-level
    set [monitored_projects], the remote service, the messages sent through
    [ctx.info], and the trace of the calls made to the client. *)
Record World := mk_World {
  os : os_state;
  monitored_projects : gset string;
  service : Service;
  ctx_log : list string;
  calls : list Call
}.

Definition set_os (f : os_state -> os_state) (w : World) : World :=
  {| os := f (os w); monitored_projects := monitored_projects w;
     service := service w; ctx_log := ctx_log w; calls := calls w |}.

(** *** File system operations in the monad *)

Definition Path_exists (p : string) : M World bool :=
  gets (fun w => path_exists p (os w)).

Definition Path_read_text (p : string) : M World string :=
  fun w => (read_text p (os w), w).

Definition Path_write_text (p content : string) : M World unit :=
  fun w =>
    let '(r, o) := write_text p content (os w) in (r, set_os (fun _ => o) w).

Definition Path_absolute (p : string) : M World string :=
  gets (fun w => path_absolute (os w) p).

(** [with tempfile.TemporaryDirectory() as temp_dir: body]. The directory
    is removed when the body returns and when it raises. *)
Definition with_TemporaryDirectory {S A} (get : S -> World)
    (put : World -> S -> S) (body : string -> M S A) : M S A :=
  fun s =>
    let w := get s in
    match mkdtemp (os w) with
    | (Raise e, o) => (Raise e, put (set_os (fun _ => o) w) s)
    | (Return temp_dir, o) =>
        let '(r, s') := body temp_dir (put (set_os (fun _ => o) w) s) in
        (r, put (set_os (rmtree temp_dir) (get s')) s')
    end.

(** *** Calls to the client *)

Definition log_call (c : Call) (w : World) : World :=
  {| os := os w; monitored_projects := monitored_projects w;
     service := service w; ctx_log := ctx_log w; calls := calls w ++ [c] |}.

Definition set_service (sv : Service) (w : World) : World :=
  {| os := os w; monitored_projects := monitored_projects w;
     service := sv; ctx_log := ctx_log w; calls := calls w |}.

Definition prove_from_file (req : SubmitRequest) : M World string :=
  fun w =>
    let '(r, sv) := Project_prove_from_file req (nodes (os w)) (service w) in
    (r, set_service sv (log_call (CallProveFromFile req) w)).

Definition from_id (project_id : string) : M World (Project datetime) :=
  fun w =>
    let '(r, sv) := Project_from_id project_id (service w) in
    (r, set_service sv (log_call (CallFromId project_id) w)).

Definition list_projects (limit : Z)
  : M World (list (Project datetime) * option string) :=
  fun w =>
    let '(r, sv) := Project_list_projects limit (service w) in
    (r, set_service sv (log_call (CallListProjects limit) w)).

Definition get_solution (project : Project datetime) (output_path : string)
  : M World unit :=
  fun w =>
    let '(r, ns, sv) :=
      Project_get_solution project output_path (nodes (os w)) (service w) in
    (r, set_service sv
          (set_os (set_nodes (fun _ => ns))
             (log_call (CallGetSolution project output_path) w))).

(** *** Module state and the request context *)

(** [monitored_projects.add(project_id)] *)
Definition monitored_projects_add (project_id : string) : M World unit :=
  modify (fun w =>
    {| os := os w; monitored_projects := {[project_id]} ∪ monitored_projects w;
       service := service w; ctx_log := ctx_log w; calls := calls w |}).

(** [if ctx: await ctx.info(msg)] *)
Definition ctx_info (ctx : option Context) (msg : string) : M World unit :=
  match ctx with
  | Some _ =>
      modify (fun w =>
        {| os := os w; monitored_projects := monitored_projects w;
           service := service w; ctx_log := ctx_log w ++ [msg];
           calls := calls w |})
  | None => ret tt
  end.

(** *** The submission tools *)

Definition prove_lean_file (file_path : string) (ctx : option Context)
  : M World string :=
  let path := file_path in
  found <- Path_exists path ;;
  if negb found then
    raise (mk_exn FileNotFoundError ("File not found: " +:+ file_path))
  else
    ctx_info ctx ("Submitting " +:+ file_path +:+ " to Aristotle...") ;;
    project_id <- prove_from_file
      {| input_file_path := Some path;
         input_content := None;
         project_input_type := FORMAL_LEAN;
         formal_input_context := None;
         wait_for_completion := false |} ;;
    monitored_projects_add project_id ;;
    ret ("Project started with ID: " +:+ project_id
         +:+ ". You will be notified when it completes.").

Definition prove_informal (file_path : string)
    (formal_context_path : option string) (ctx : option Context)
  : M World string :=
  let path := file_path in
  found <- Path_exists path ;;
  if negb found then
    raise (mk_exn FileNotFoundError ("File not found: " +:+ file_path))
  else
    ctx_info ctx ("Submitting informal file " +:+ file_path
                  +:+ " to Aristotle...") ;;
    project_id <- prove_from_file
      {| input_file_path := Some path;
         input_content := None;
         project_input_type := INFORMAL;
         formal_input_context := formal_context_path;
         wait_for_completion := false |} ;;
    monitored_projects_add project_id ;;
    ret ("Project started with ID: " +:+ project_id
         +:+ ". You will be notified when it completes.").

Definition prove_lean_code (lean_code : string) (ctx : option Context)
  : M World string :=
  ctx_info ctx "Submitting Lean code to Aristotle..." ;;
  project_id <- prove_from_file
    {| input_file_path := None;
       input_content := Some lean_code;
       project_input_type := FORMAL_LEAN;
       formal_input_context := None;
       wait_for_completion := false |} ;;
  monitored_projects_add project_id ;;
  ret ("Project started with ID: " +:+ project_id +:+ ".").

Definition prove_informal_text (text : string)
    (formal_context_path : option string) (ctx : option Context)
  : M World string :=
  ctx_info ctx "Submitting informal text to Aristotle..." ;;
  project_id <- prove_from_file
    {| input_file_path := None;
       input_content := Some text;
       project_input_type := INFORMAL;
       formal_input_context := formal_context_path;
       wait_for_completion := false |} ;;
  monitored_projects_add project_id ;;
  ret ("Project started with ID: " +:+ project_id +:+ ".").

(** *** Status and listing *)

(** The local variables of an endpoint that builds a response in the
    [dict] [data], next to the world. An assignment into [data] made
    inside a [try] block stays when the block raises. *)
Record Frame := mk_Frame {
  data : dict;
  world : World
}.

Definition set_world (w : World) (f : Frame) : Frame :=
  {| data := data f; world := w |}.

(** A computation on the world, run inside a frame. *)
Definition in_world {A} (c : M World A) : M Frame A :=
  fun f => let '(r, w) := c (world f) in (r, set_world w f).

(** [data[k] = v] *)
Definition data_set (k : string) (v : json) : M Frame unit :=
  modify (fun f => {| data := dict_set k v (data f); world := world f |}).

(** Runs [body] with [data] bound to [d]. *)
Definition with_data {A} (d : dict) (body : M Frame A) : M World A :=
  fun w => let '(r, f) := body {| data := d; world := w |} in (r, world f).

(** The [dict] both status endpoints start from. *)
Definition status_data (project : Project datetime) : dict :=
  [ ("project_id", JStr (project_id project));
    ("status", JStr (status_value (status project)));
    ("created_at", JStr (isoformat (created_at project)));
    ("last_updated_at", JStr (isoformat (last_updated_at project)));
    ("file_name", of_optional (file_name project));
    ("description", of_optional (description project)) ].

Definition get_project_status (project_id : string)
    (save_solution_to : option string) : M World string :=
  project <- from_id project_id ;;
  with_data (status_data project) (
    (if bool_decide (status project = COMPLETE) then
       try_except_Exception
         (with_TemporaryDirectory world set_world (fun temp_dir =>
            let output_path := path_join temp_dir "solution.lean" in
            in_world (get_solution project output_path) ;;
            found <- in_world (Path_exists output_path) ;;
            if found then
              solution_content <- in_world (Path_read_text output_path) ;;
              data_set "solution" (JStr solution_content) ;;
              match save_solution_to with
              | Some save_path =>
                  if truthy save_solution_to then
                    in_world (Path_write_text save_path solution_content) ;;
                    absolute <- in_world (Path_absolute save_path) ;;
                    data_set "saved_to" (JStr absolute)
                  else ret tt
              | None => ret tt
              end
            else ret tt))
         (fun e => data_set "solution_error" (JStr (exn_str e)))
     else ret tt) ;;
    d <- gets data ;;
    ret (dumps (JDict d) 2)).

(** One line of the listing; [{p.created_at}] is [str(p.created_at)]. *)
Definition project_line (p : Project datetime) : string :=
  "Project: " +:+ project_id p +:+ ", Status: " +:+ status_value (status p)
  +:+ ", Created: " +:+ datetime_str (created_at p).

Definition list_recent_projects (limit : Z) (save_to : option string)
  : M World string :=
  listing <- list_projects limit ;;
  let projects := fst listing in
  let lines := map project_line projects in
  let result := join LF lines in
  match save_to with
  | Some path =>
      if truthy save_to then
        Path_write_text path result ;;
        ret ("Project list saved to " +:+ path)
      else ret result
  | None => ret result
  end.

(** *** Resources *)

Definition list_projects_resource : M World string :=
  listing <- list_projects 20 ;;
  let projects := fst listing in
  let d :=
    map (fun p =>
           JDict [ ("project_id", JStr (project_id p));
                   ("status", JStr (status_value (status p)));
                   ("created_at", JStr (isoformat (created_at p)));
                   ("file_name", of_optional (file_name p));
                   ("description", of_optional (description p)) ])
        projects in
  ret (dumps (JList d) 2).

Definition get_project_resource (project_id : string) : M World string :=
  project <- from_id project_id ;;
  with_data (status_data project) (
    (if bool_decide (status project = COMPLETE) then
       try_except_Exception
         (with_TemporaryDirectory world set_world (fun temp_dir =>
            let output_path := path_join temp_dir "solution.lean" in
            in_world (get_solution project output_path) ;;
            found <- in_world (Path_exists output_path) ;;
            if found then
              solution_content <- in_world (Path_read_text output_path) ;;
              data_set "solution" (JStr solution_content)
            else ret tt))
         (fun e => data_set "solution_error" (JStr (exn_str e)))
     else ret tt) ;;
    d <- gets data ;;
    ret (dumps (JDict d) 2)).

(** *** The registered endpoints *)

(** The six tools and the two resources registered with [mcp], each with
    its arguments. *)
Inductive Endpoint :=
| ProveLeanFile (file_path : string) (ctx : option Context)
| ProveInformal (file_path : string) (formal_context_path : option string)
    (ctx : option Context)
| GetProjectStatus (project_id : string) (save_solution_to : option string)
| ListRecentProjects (limit : Z) (save_to : option string)
| ProveLeanCode (lean_code : string) (ctx : option Context)
| ProveInformalText (text : string) (formal_context_path : option string)
    (ctx : option Context)
| ListProjectsResource
| GetProjectResource (project_id : string).

Definition invoke (e : Endpoint) : M World string :=
  match e with
  | ProveLeanFile file_path ctx => prove_lean_file file_path ctx
  | ProveInformal file_path formal_context_path ctx =>
      prove_informal file_path formal_context_path ctx
  | GetProjectStatus project_id save_solution_to =>
      get_project_status project_id save_solution_to
  | ListRecentProjects limit save_to => list_recent_projects limit save_to
  | ProveLeanCode lean_code ctx => prove_lean_code lean_code ctx
  | ProveInformalText text formal_context_path ctx =>
      prove_informal_text text formal_context_path ctx
  | ListProjectsResource => list_projects_resource
  | GetProjectResource project_id => get_project_resource project_id
  end.

(** The world after a sequence of invocations, whatever each returns or
    raises. *)
Definition invoke_all (es : list Endpoint) (w : World) : World :=
  foldl (fun w e => snd (invoke e w)) w es.

(** The request a submission tool sends to the client; [None] for an
    endpoint that submits nothing. *)
Definition submission_request (e : Endpoint) : option SubmitRequest :=
  match e with
  | ProveLeanFile file_path _ =>
      Some {| input_file_path := Some file_path;
              input_content := None;
              project_input_type := FORMAL_LEAN;
              formal_input_context := None;
              wait_for_completion := false |}
  | ProveInformal file_path formal_context_path _ =>
      Some {| input_file_path := Some file_path;
              input_content := None;
              project_input_type := INFORMAL;
              formal_input_context := formal_context_path;
              wait_for_completion := false |}
  | ProveLeanCode lean_code _ =>
      Some {| input_file_path := None;
              input_content := Some lean_code;
              project_input_type := FORMAL_LEAN;
              formal_input_context := None;
              wait_for_completion := false |}
  | ProveInformalText text formal_context_path _ =>
      Some {| input_file_path := None;
              input_content := Some text;
              project_input_type := INFORMAL;
              formal_input_context := formal_context_path;
              wait_for_completion := false |}
  | _ => None
  end.

(** The project an endpoint reports the status of: the tool
    [get_project_status] and the resource [projects/{project_id}]. *)
Definition status_query (e : Endpoint) : option string :=
  match e with
  | GetProjectStatus project_id _ => Some project_id
  | GetProjectResource project_id => Some project_id
  | _ => None
  end.

(** The save path a status endpoint was given; the resource has none. *)
Definition save_path_of (e : Endpoint) : option string :=
  match e with
  | GetProjectStatus _ save_solution_to => save_solution_to
  | _ => None
  end.

(** The six members of a response that make the status metadata. *)
Definition status_metadata (response : string) : list (option json) :=
  map (fun k => response_field k response)
    ["project_id"; "status"; "created_at"; "last_updated_at"; "file_name";
     "description"].

(** The status metadata of a project, as a response carries it. *)
Definition metadata_of (project : Project datetime) : list (option json) :=
  [ Some (JStr (project_id project));
    Some (JStr (status_value (status project)));
    Some (JStr (isoformat (created_at project)));
    Some (JStr (isoformat (last_updated_at project)));
    Some (of_optional (file_name project));
    Some (of_optional (description project)) ].

(** A computation on the world that removes nothing from
    [monitored_projects], whether it returns or raises. *)
Definition keeps {A} (c : M World A) : Prop :=
  forall w, monitored_projects w ⊆ monitored_projects (snd (c w)).

(** The same for a computation in a frame. *)
Definition keeps_in_frame {A} (c : M Frame A) : Prop :=
  forall f, monitored_projects (world f) ⊆ monitored_projects (world (snd (c f))).

(** The extra members a status response can carry after the status data. *)
Inductive extras : dict -> Prop :=
| extras_none : extras []
| extras_error m : extras [("solution_error", JStr m)]
| extras_solution t : extras [("solution", JStr t)]
| extras_saved t a : extras [("solution", JStr t); ("saved_to", JStr a)]
| extras_unsaved t m : extras [("solution", JStr t); ("solution_error", JStr m)].

(** *** Views used by the further properties *)

(** The object the resource [projects] prints for one project. *)
Definition project_entry (p : Project datetime) : dict :=
  [ ("project_id", JStr (project_id p));
    ("status", JStr (status_value (status p)));
    ("created_at", JStr (isoformat (created_at p)));
    ("file_name", of_optional (file_name p));
    ("description", of_optional (description p)) ].

(** The limit a listing endpoint passes to the client: the tool passes its
    argument, the resource passes 20. *)
Definition listing_limit (e : Endpoint) : option Z :=
  match e with
  | ListRecentProjects limit _ => Some limit
  | ListProjectsResource => Some 20%Z
  | _ => None
  end.

(** The endpoints with a statement that writes to the file system: the two
    status endpoints (temporary directory, retrieval, copy) and the listing
    tool when it is given a save path. *)
Definition touches_disk (e : Endpoint) : bool :=
  match e with
  | GetProjectStatus _ _ => true
  | GetProjectResource _ => true
  | ListRecentProjects _ save_to => truthy save_to
  | _ => false
  end.

(** A call of the trace that is not a submission, or is a submission that
    does not wait for completion and carries either a file or a text. *)
Definition fire_and_return (c : Call) : Prop :=
  match c with
  | CallProveFromFile req =>
      wait_for_completion req = false
      /\ (input_file_path req = None <-> is_Some (input_content req))
  | _ => True
  end.

(** The number of submissions in a trace. *)
Fixpoint submissions (cs : list Call) : nat :=
  match cs with
  | [] => 0
  | CallProveFromFile _ :: cs' => S (submissions cs')
  | _ :: cs' => submissions cs'
  end.

End WithClient.
End Adapter.

(** ** A scripted client double *)

Module Double.

(** What the double's [get_solution] does. *)
Inductive Retrieval :=
| Writes (text : string)
| NoOp
| Fails (e : exn).

(** The script of the double: the answer of each operation. A timestamp is
    its date and its time of day. *)
Record Script := mk_Script {
  on_submit : result string;
  on_fetch : result (Project (string * string));
  on_list : result (list (Project (string * string)) * option string);
  on_retrieve : Retrieval
}.

#[export] Instance client : Client := {|
  datetime := string * string;
  isoformat := fun d => fst d +:+ "T" +:+ snd d;
  datetime_str := fun d => fst d +:+ " " +:+ snd d;
  status_value := fun s =>
    match s with
    | SUBMITTED => "SUBMITTED"
    | RUNNING => "RUNNING"
    | COMPLETE => "COMPLETE"
    | FAILED => "FAILED"
    end;
  Service := Script;
  Project_prove_from_file := fun _ _ sv => (on_submit sv, sv);
  Project_from_id := fun _ sv => (on_fetch sv, sv);
  Project_list_projects := fun _ sv => (on_list sv, sv);
  Project_get_solution := fun _ output_path ns sv =>
    match on_retrieve sv with
    | Writes text => (Return tt, <[output_path := RegFile text]> ns, sv)
    | NoOp => (Return tt, ns, sv)
    | Fails e => (Raise e, ns, sv)
    end
|}.

Definition foo : Project (string * string) :=
  {| project_id := "p-1";
     status := COMPLETE;
     created_at := ("2025-01-02", "03:04:05");
     last_updated_at := ("2025-01-02", "03:09:00");
     file_name := Some "Foo.lean";
     description := None |}.

Definition bar : Project (string * string) :=
  {| project_id := "p-2";
     status := RUNNING;
     created_at := ("2025-01-03", "10:00:00");
     last_updated_at := ("2025-01-03", "10:00:01");
     file_name := None;
     description := Some "bar" |}.

Definition disk : gmap string node :=
  list_to_map
    [ ("/", Directory); ("/tmp", Directory); ("/home", Directory);
      ("/home/Foo.lean", RegFile "theorem foo : True := by sorry") ].

Definition script (fetched : Project (string * string)) (r : Retrieval)
  : Script :=
  {| on_submit := Return "p-1";
     on_fetch := Return fetched;
     on_list := Return ([foo; bar], None);
     on_retrieve := r |}.

Definition world0 (sv : Script) : Adapter.World :=
  {| Adapter.os := {| nodes := disk; cwd := "/home"; tmp_names := ["/tmp/tmp0001"] |};
     Adapter.monitored_projects := ∅;
     Adapter.service := sv;
     Adapter.ctx_log := [];
     Adapter.calls := [] |}.

(** A script on which every operation of the client raises [e]. *)
Definition refusing (e : exn) : Script :=
  {| on_submit := Raise e;
     on_fetch := Raise e;
     on_list := Raise e;
     on_retrieve := Fails e |}.

(** The double's world on another state of the operating system. *)
Definition world_on (o : os_state) (sv : Script) : Adapter.World :=
  {| Adapter.os := o;
     Adapter.monitored_projects := ∅;
     Adapter.service := sv;
     Adapter.ctx_log := [];
     Adapter.calls := [] |}.

(** The double's disk when [tempfile] has no name left to draw. *)
Definition no_tmp_names : os_state :=
  {| nodes := disk; cwd := "/home"; tmp_names := [] |}.

End Double.

(** * Properties *)

(** ** Strings *)

Module StrFacts.

#[local] Arguments String.append !_ _ / : simpl nomatch.

Lemma app_assoc (a b c : string) : (a +:+ b) +:+ c = a +:+ (b +:+ c).
Proof. induction a as [|x a IH]; cbn; [reflexivity | by rewrite IH]. Qed.

Lemma length_app (a b : string) :
  String.length (a +:+ b) = String.length a + String.length b.
Proof. induction a as [|x a IH]; cbn; [reflexivity | by rewrite IH]. Qed.

Lemma contains_intro (pre sub post : string) :
  contains sub (pre +:+ sub +:+ post).
Proof. by exists pre, post. Qed.

(** Joining [n] pieces with a separator that is not empty takes at least
    [n - 1] characters. *)
Lemma length_join (sep : string) (l : list string) :
  0 < String.length sep -> length l <= S (String.length (join sep l)).
Proof.
  intros Hsep. induction l as [|x [|y l] IH]; simpl in *; try lia.
  rewrite !length_app. lia.
Qed.

(** A piece of a join, and one character for each of the other pieces. *)
Lemma length_join_elem (sep x : string) (l : list string) :
  0 < String.length sep -> x ∈ l ->
  String.length x + length l <= S (String.length (join sep l)).
Proof.
  intros Hsep. induction l as [|y [|z l] IH]; intros Hin.
  - by apply elem_of_nil in Hin.
  - apply list_elem_of_singleton in Hin as ->. cbn. lia.
  - change (join sep (y :: z :: l)) with (y +:+ sep +:+ join sep (z :: l)).
    rewrite !length_app. cbn [length].
    apply elem_of_cons in Hin as [->|Hin].
    + pose proof (length_join sep (z :: l) Hsep) as Hj. cbn [length] in Hj. lia.
    + specialize (IH Hin). cbn [length] in IH. lia.
Qed.

End StrFacts.

(** ** Reading back what [dumps] prints *)

Module JsonFacts.
Import StrFacts.

#[local] Arguments String.append !_ _ / : simpl nomatch.

Lemma scan_escape_char (c : ascii) (tail : string) :
  scan_string (escape_char c +:+ tail) = cons_char c (scan_string tail).
Proof. destruct c as [[] [] [] [] [] [] [] []]; reflexivity. Qed.

Lemma scan_escape (s rest : string) :
  scan_string (escape s +:+ String DQUOTE rest) = Some (s, rest).
Proof.
  induction s as [|c s IH]; cbn [escape]; [reflexivity|].
  by rewrite app_assoc, scan_escape_char, IH.
Qed.

Lemma encode_str_app (s rest : string) :
  encode_str s +:+ rest = String DQUOTE (escape s +:+ String DQUOTE rest).
Proof. unfold encode_str. cbn [String.append]. by rewrite app_assoc. Qed.

Lemma parse_flat (indent level fuel : nat) (v : json) (rest : string) :
  flat v = true ->
  parse (S fuel) (encode indent level v +:+ rest) = Some (v, rest).
Proof.
  destruct v as [|s|l|d]; try discriminate; intros _.
  - reflexivity.
  - cbn [encode]. rewrite encode_str_app. cbn. by rewrite scan_escape.
Qed.

Lemma skip_ws_flat (indent level : nat) (v : json) (rest : string) :
  flat v = true ->
  skip_ws (encode indent level v +:+ rest) = encode indent level v +:+ rest.
Proof. destruct v; try discriminate; reflexivity. Qed.

Lemma skip_ws_spaces (n : nat) (s : string) : skip_ws (spaces n +:+ s) = skip_ws s.
Proof. induction n as [|n IH]; cbn; [reflexivity | exact IH]. Qed.

Lemma skip_ws_newline_indent (indent level : nat) (s : string) :
  skip_ws (newline_indent indent level +:+ s) = skip_ws s.
Proof. unfold newline_indent. rewrite app_assoc. cbn. apply skip_ws_spaces. Qed.

Lemma skip_ws_member (indent level : nat) (kv : string * json) (tail : string) :
  skip_ws (member indent level kv +:+ tail) = member indent level kv +:+ tail.
Proof. unfold member. rewrite !app_assoc, encode_str_app. reflexivity. Qed.

Lemma join_cons_app (sep x y : string) (l : list string) (tail : string) :
  join sep (x :: y :: l) +:+ tail = x +:+ sep +:+ (join sep (y :: l) +:+ tail).
Proof. cbn [join]. by rewrite !app_assoc. Qed.

Lemma parse_members_quote (fuel : nat) (s' : string) :
  parse_members (S fuel) (String DQUOTE s') =
  match scan_string s' with
  | Some (k, rest) =>
      match strip_prefix ":" (skip_ws rest) with
      | Some rest1 =>
          match parse fuel (skip_ws rest1) with
          | Some (v, rest2) =>
              match skip_ws rest2 with
              | String c rest3 =>
                  if (N_of_ascii c =? 44)%N then
                    match parse_members fuel (skip_ws rest3) with
                    | Some (ms, rest4) => Some ((k, v) :: ms, rest4)
                    | None => None
                    end
                  else if (N_of_ascii c =? 125)%N then Some ([(k, v)], rest3)
                  else None
              | "" => None
              end
          | None => None
          end
      | None => None
      end
  | None => None
  end.
Proof. reflexivity. Qed.

Lemma after_key (x : string) :
  strip_prefix ":" (skip_ws (String ":" (String " " x))) = Some (String " " x).
Proof. reflexivity. Qed.

Lemma skip_ws_space (x : string) : skip_ws (String " " x) = skip_ws x.
Proof. reflexivity. Qed.

(** One member read: what [parse_members] does after it. *)
Lemma parse_members_head (indent level fuel : nat) (k : string) (v : json)
    (tail : string) :
  flat v = true ->
  parse_members (S (S fuel)) (member indent level (k, v) +:+ tail) =
  match skip_ws tail with
  | String c rest3 =>
      if (N_of_ascii c =? 44)%N then
        match parse_members (S fuel) (skip_ws rest3) with
        | Some (ms, rest4) => Some ((k, v) :: ms, rest4)
        | None => None
        end
      else if (N_of_ascii c =? 125)%N then Some ([(k, v)], rest3)
      else None
  | "" => None
  end.
Proof.
  intros Hv. unfold member. cbn [fst snd].
  rewrite !app_assoc, encode_str_app, parse_members_quote, scan_escape.
  change (": " +:+ ?x) with (String ":" (String " " x)).
  rewrite after_key, skip_ws_space, skip_ws_flat, parse_flat by done.
  reflexivity.
Qed.

Lemma skip_ws_members (indent level : nat) (sep : string)
    (kv : string * json) (d : dict) (tail : string) :
  skip_ws (join sep (map (member indent level) (kv :: d)) +:+ tail)
  = join sep (map (member indent level) (kv :: d)) +:+ tail.
Proof.
  destruct d as [|kv' d]; cbn [map].
  - cbn [join]. apply skip_ws_member.
  - rewrite join_cons_app. apply skip_ws_member.
Qed.

Lemma not_brace_members (indent level : nat) (sep : string)
    (kv : string * json) (d : dict) (tail : string) :
  strip_prefix "}" (join sep (map (member indent level) (kv :: d)) +:+ tail)
  = None.
Proof.
  destruct d as [|kv' d]; cbn [map]; [cbn [join] | rewrite join_cons_app];
    unfold member; rewrite !app_assoc, encode_str_app; reflexivity.
Qed.

(** The members of a flat object, as [encode] prints them, read back as
    they are. *)
Lemma parse_members_flat (indent level : nat) (d : dict) (rest : string) :
  d <> [] ->
  Forall (fun kv => flat (snd kv) = true) d ->
  forall fuel, length d < fuel ->
  parse_members fuel
    (join ("," +:+ newline_indent indent (S level)) (map (member indent level) d)
     +:+ newline_indent indent level +:+ "}" +:+ rest)
  = Some (d, rest).
Proof.
  intros Hne Hflat. induction Hflat as [|[k v] d Hv Hd IH]; [done|].
  intros [|[|fuel]] Hfuel; cbn [length] in Hfuel; try lia.
  cbn [snd] in Hv. destruct d as [|kv d'].
  - cbn [map join]. rewrite parse_members_head, skip_ws_newline_indent by done.
    reflexivity.
  - cbn [map]. rewrite join_cons_app, parse_members_head by done.
    rewrite app_assoc. change ("," +:+ ?x) with (String "," x).
    cbn [skip_ws is_ws]. change (is_ws ",") with false. cbv iota.
    change (N_of_ascii "," =? 44)%N with true. cbv iota.
    rewrite skip_ws_newline_indent.
    change (join ?sep (?a :: map ?f d')) with (join sep (map f (kv :: d'))).
    rewrite skip_ws_members, IH; [reflexivity | done | cbn [length] in *; lia].
Qed.

(** A [dict] whose keys differ pairwise is what its members make. *)
Lemma dict_set_fresh (k : string) (v : json) (d : dict) :
  k ∉ dict_keys d -> dict_set k v d = d ++ [(k, v)].
Proof.
  unfold dict_keys. induction d as [|[k' v'] d IH]; cbn; [done|].
  intros Hk. apply not_elem_of_cons in Hk as [Hne Hk].
  rewrite bool_decide_eq_false_2 by done. by rewrite IH.
Qed.

Lemma dict_of_NoDup (d : dict) : NoDup (dict_keys d) -> dict_of d = d.
Proof.
  unfold dict_of. intros Hd.
  enough (Hgen : forall acc,
    NoDup (dict_keys (acc ++ d)) ->
    foldl (fun d kv => dict_set (fst kv) (snd kv) d) acc d = acc ++ d)
    by exact (Hgen [] Hd).
  clear Hd. induction d as [|[k v] d IH]; intros acc Hacc; cbn.
  - by rewrite List.app_nil_r.
  - assert (Hk : k ∉ dict_keys acc).
    { unfold dict_keys in *. rewrite fmap_app in Hacc.
      apply NoDup_app in Hacc as (_ & Hdisj & _).
      intros Hin. apply (Hdisj _ Hin). cbn. left. }
    rewrite dict_set_fresh by done.
    rewrite IH; rewrite <- List.app_assoc; [reflexivity | exact Hacc].
Qed.

(** A response with flat members and pairwise different keys is read back
    as the [dict] it was printed from. *)
Lemma loads_dumps_flat (d : dict) :
  Forall (fun kv => flat (snd kv) = true) d ->
  NoDup (dict_keys d) ->
  loads (dumps (JDict d) 2) = Some (JDict d).
Proof.
  intros Hflat Hnd. destruct d as [|kv d]; [reflexivity|].
  unfold loads, dumps.
  set (text := encode 2 0 (JDict (kv :: d))).
  assert (Htext : text =
    String "{" (newline_indent 2 1 +:+
      (join ("," +:+ newline_indent 2 1) (map (member 2 0) (kv :: d))
       +:+ newline_indent 2 0 +:+ "}" +:+ ""))).
  { reflexivity. }
  assert (Hlen : length (kv :: d) < String.length text).
  { rewrite Htext. cbn [String.length]. rewrite !length_app.
    pose proof (length_join ("," +:+ newline_indent 2 1)
                  (map (member 2 0) (kv :: d))) as Hj.
    rewrite length_map in Hj. unfold newline_indent in *.
    rewrite !length_app in *. cbn [String.length LF] in *. lia. }
  rewrite Htext at 2.
  cbn [skip_ws is_ws]. change (is_ws "{") with false. cbv iota.
  cbn [parse]. change (N_of_ascii "{" =? 34)%N with false.
  change (N_of_ascii "{" =? 110)%N with false.
  change (N_of_ascii "{" =? 91)%N with false.
  change (N_of_ascii "{" =? 123)%N with true. cbv iota.
  rewrite skip_ws_newline_indent, skip_ws_members, not_brace_members.
  rewrite parse_members_flat by done.
  rewrite dict_of_NoDup by done. reflexivity.
Qed.

(** The member [k] of such a response is the entry [k] of the [dict]. *)
Lemma response_field_dumps (k : string) (d : dict) :
  Forall (fun kv => flat (snd kv) = true) d ->
  NoDup (dict_keys d) ->
  response_field k (dumps (JDict d) 2) = dict_get k d.
Proof.
  intros Hflat Hnd. unfold response_field. by rewrite loads_dumps_flat.
Qed.
(** *** Lists of flat objects *)

Lemma encode_dict_app (indent level : nat) (kv : string * json) (d : dict)
    (rest : string) :
  encode indent level (JDict (kv :: d)) +:+ rest
  = String "{"
      (newline_indent indent (S level)
       +:+ (join ("," +:+ newline_indent indent (S level))
              (map (member indent level) (kv :: d))
            +:+ newline_indent indent level +:+ "}" +:+ rest)).
Proof. cbn [encode]. rewrite !app_assoc. reflexivity. Qed.

Lemma length_encode_dict (indent level : nat) (d : dict) :
  length d <= String.length (encode indent level (JDict d)).
Proof.
  destruct d as [|kv d]; [cbn; lia|].
  cbn [encode]. rewrite !length_app.
  match goal with |- context [join ?sep ?l] =>
    pose proof (length_join sep l
                  ltac:(unfold newline_indent; rewrite !length_app; cbn; lia))
      as Hj
  end.
  rewrite length_map in Hj. cbn [length String.length] in *. lia.
Qed.

Lemma skip_ws_dict (indent level : nat) (d : dict) (rest : string) :
  skip_ws (encode indent level (JDict d) +:+ rest)
  = encode indent level (JDict d) +:+ rest.
Proof. destruct d; [reflexivity | by rewrite encode_dict_app]. Qed.

Lemma not_bracket_dict (indent level : nat) (d : dict) (rest : string) :
  strip_prefix "]" (encode indent level (JDict d) +:+ rest) = None.
Proof. destruct d; [reflexivity | by rewrite encode_dict_app]. Qed.

(** A plain object, at any depth and before any text, is read back. *)
Lemma parse_plain_dict (indent level : nat) (d : dict) (rest : string)
    (fuel : nat) :
  plain d -> length d < fuel ->
  parse (S fuel) (encode indent level (JDict d) +:+ rest) = Some (JDict d, rest).
Proof.
  intros [Hflat Hnd] Hfuel. destruct d as [|kv d]; [reflexivity|].
  rewrite encode_dict_app. cbn [parse].
  change (N_of_ascii "{" =? 34)%N with false.
  change (N_of_ascii "{" =? 110)%N with false.
  change (N_of_ascii "{" =? 91)%N with false.
  change (N_of_ascii "{" =? 123)%N with true. cbv iota.
  rewrite skip_ws_newline_indent, skip_ws_members, not_brace_members.
  rewrite parse_members_flat by done.
  by rewrite dict_of_NoDup.
Qed.

Lemma parse_items_S (fuel : nat) (s : string) :
  parse_items (S fuel) s =
  match parse fuel s with
  | Some (v, rest) =>
      match skip_ws rest with
      | String c rest' =>
          if (N_of_ascii c =? 44)%N then
            match parse_items fuel (skip_ws rest') with
            | Some (l, rest'') => Some (v :: l, rest'')
            | None => None
            end
          else if (N_of_ascii c =? 93)%N then Some ([v], rest')
          else None
      | "" => None
      end
  | None => None
  end.
Proof. reflexivity. Qed.

(** The elements of a list of plain objects, as [encode] prints them, are
    read back in their order. *)
Lemma parse_items_dicts (indent level : nat) (l : list dict) (rest : string) :
  l <> [] ->
  Forall plain l ->
  forall fuel,
    Forall (fun d => length d + length l + 2 <= fuel) l ->
    parse_items fuel
      (join ("," +:+ newline_indent indent (S level))
         (map (fun d => encode indent (S level) (JDict d)) l)
       +:+ newline_indent indent level +:+ "]" +:+ rest)
    = Some (map JDict l, rest).
Proof.
  intros Hne Hplain. induction Hplain as [|d l Hd Hl IH]; [done|].
  intros fuel Hfuel. apply Forall_cons in Hfuel as [Hd_fuel Hl_fuel].
  cbn [length] in Hd_fuel.
  destruct fuel as [|[|fuel]]; try lia.
  destruct l as [|d' l'].
  - cbn [map join]. rewrite parse_items_S, parse_plain_dict by (done || lia).
    rewrite skip_ws_newline_indent. reflexivity.
  - cbn [map]. rewrite join_cons_app, parse_items_S.
    rewrite parse_plain_dict by (done || lia).
    rewrite app_assoc. change ("," +:+ ?x) with (String "," x).
    cbn [skip_ws is_ws]. change (is_ws ",") with false. cbv iota.
    change (N_of_ascii "," =? 44)%N with true. cbv iota.
    rewrite skip_ws_newline_indent.
    change (join ?sep (?a :: map ?f l')) with (join sep (map f (d' :: l'))).
    assert (Hskip : forall tail,
      skip_ws (join ("," +:+ newline_indent indent (S level))
                 (map (fun d => encode indent (S level) (JDict d)) (d' :: l'))
               +:+ tail)
      = join ("," +:+ newline_indent indent (S level))
          (map (fun d => encode indent (S level) (JDict d)) (d' :: l'))
        +:+ tail).
    { intros tail. destruct l'; cbn [map];
        [cbn [join] | rewrite join_cons_app]; apply skip_ws_dict. }
    rewrite Hskip, IH; [reflexivity | done |].
    eapply Forall_impl; [exact Hl_fuel|]. cbn. intros; lia.
Qed.

(** A list of plain objects is read back from what [dumps] prints. *)
Lemma loads_dumps_dicts (l : list dict) :
  Forall plain l ->
  loads (dumps (JList (map JDict l)) 2) = Some (JList (map JDict l)).
Proof.
  intros Hplain. destruct l as [|d l]; [reflexivity|].
  unfold loads, dumps.
  set (items := map (fun d => encode 2 1 (JDict d)) (d :: l)).
  set (text := encode 2 0 (JList (map JDict (d :: l)))).
  assert (Htext : text =
    String "[" (newline_indent 2 1 +:+
      (join ("," +:+ newline_indent 2 1) items
       +:+ newline_indent 2 0 +:+ "]" +:+ ""))).
  { subst text items. cbn [map encode]. rewrite !map_map. reflexivity. }
  assert (Hfuel : Forall (fun d' => length d' + length (d :: l) + 2
                                    <= String.length text) (d :: l)).
  { apply Forall_forall. intros d' Hd'.
    rewrite Htext. cbn [String.length]. rewrite !length_app.
    assert (Hin : encode 2 1 (JDict d') ∈ items).
    { subst items. apply list_elem_of_fmap. by exists d'. }
    pose proof (length_join_elem ("," +:+ newline_indent 2 1) _ items
                  ltac:(unfold newline_indent; rewrite !length_app; cbn; lia)
                  Hin) as Hj.
    subst items. rewrite length_map in Hj.
    pose proof (length_encode_dict 2 1 d').
    assert (1 <= String.length (newline_indent 2 1)) by (cbn; lia).
    cbn [String.length]. lia. }
  rewrite Htext at 2.
  cbn [skip_ws is_ws]. change (is_ws "[") with false. cbv iota.
  cbn [parse]. change (N_of_ascii "[" =? 34)%N with false.
  change (N_of_ascii "[" =? 110)%N with false.
  change (N_of_ascii "[" =? 91)%N with true. cbv iota.
  rewrite skip_ws_newline_indent.
  assert (Hhead : forall tail,
    skip_ws (join ("," +:+ newline_indent 2 1) items +:+ tail)
    = join ("," +:+ newline_indent 2 1) items +:+ tail
    /\ strip_prefix "]" (join ("," +:+ newline_indent 2 1) items +:+ tail) = None).
  { intros tail. subst items. destruct l; cbn [map];
      [cbn [join] | rewrite join_cons_app];
      split; (apply skip_ws_dict || apply not_bracket_dict). }
  rewrite (proj1 (Hhead _)), (proj2 (Hhead _)).
  subst items. rewrite parse_items_dicts by done. reflexivity.
Qed.

End JsonFacts.

(** ** The file system *)

Module OsFacts.

(** What [write_text] raises is an [OSError], hence an [Exception]. *)
Lemma write_text_raises (p content : string) (o o' : os_state) (e : exn) :
  write_text p content o = (Raise e, o') ->
  isinstance_Exception e = true /\ o' = o.
Proof.
  unfold write_text. intros Hw.
  destruct (nodes o !! path_absolute o p) as [[|]|];
    destruct (nodes o !! parent (path_absolute o p)) as [[|]|];
    by simplify_eq.
Qed.

Lemma write_text_cwd (p content : string) (o o' : os_state) (r : result unit) :
  write_text p content o = (r, o') -> cwd o' = cwd o.
Proof.
  unfold write_text. intros Hw.
  destruct (nodes o !! path_absolute o p) as [[|]|];
    destruct (nodes o !! parent (path_absolute o p)) as [[|]|];
    by simplify_eq.
Qed.

(** A successful [write_text] leaves the text in the file. *)
Lemma read_after_write (p content : string) (o o' : os_state) :
  write_text p content o = (Return tt, o') -> read_text p o' = Return content.
Proof.
  unfold write_text, read_text, path_absolute. intros Hw.
  destruct (nodes o !! path_join (cwd o) p) as [[|]|];
    destruct (nodes o !! parent (path_join (cwd o) p)) as [[|]|];
    simplify_eq; cbn; by rewrite lookup_insert_eq.
Qed.

(** [rmtree d] leaves what is not under [d] as it is. *)
Lemma read_after_rmtree (d p : string) (o : os_state) :
  path_under d (path_absolute o p) = false ->
  read_text p (rmtree d o) = read_text p o.
Proof.
  unfold read_text, rmtree, path_absolute. cbn. intros Hp.
  destruct (nodes o !! path_join (cwd o) p) as [n|] eqn:Hn.
  - erewrite map_lookup_filter_Some_2; [reflexivity | exact Hn | exact Hp].
  - rewrite map_lookup_filter_None_2; [reflexivity | by left].
Qed.

(** [rmtree d] leaves nothing at [d] or under it. *)
Lemma gone_after_rmtree (d p : string) (o : os_state) :
  path_under d (path_absolute o p) = true ->
  path_exists p (rmtree d o) = false.
Proof.
  unfold path_exists, rmtree, path_absolute. cbn. intros Hp.
  apply bool_decide_eq_false_2. intros [n Hn].
  apply map_lookup_filter_Some in Hn as [_ Hf]. cbn in Hf. congruence.
Qed.

Lemma read_text_exists (p content : string) (o : os_state) :
  read_text p o = Return content -> path_exists p o = true.
Proof.
  unfold read_text, path_exists. intros Hr. apply bool_decide_eq_true_2.
  destruct (nodes o !! path_absolute o p); [by eexists | done].
Qed.


Lemma mkdtemp_cwd (o o' : os_state) (r : result string) :
  mkdtemp o = (r, o') -> cwd o' = cwd o.
Proof.
  unfold mkdtemp. intros Hm.
  destruct (pick_tmp_name o (tmp_names o)) as [[d rest]|];
    [destruct (nodes o !! parent d) as [[|]|]|]; by simplify_eq.
Qed.

Lemma mkdtemp_raises (o o' : os_state) (e : exn) :
  mkdtemp o = (Raise e, o') -> isinstance_Exception e = true.
Proof.
  unfold mkdtemp. intros Hm.
  destruct (pick_tmp_name o (tmp_names o)) as [[d rest]|];
    [destruct (nodes o !! parent d) as [[|]|]|]; by simplify_eq.
Qed.

Lemma nodes_after_rmtree (d k : string) (o : os_state) :
  path_under d k = true -> nodes (rmtree d o) !! k = None.
Proof.
  intros Hk. unfold rmtree. cbn. apply map_lookup_filter_None.
  right. intros n _. cbn. congruence.
Qed.

End OsFacts.

(** ** The endpoints *)

Module AdapterFacts.
Import StrFacts JsonFacts OsFacts Adapter.

Section WithClient.

Context `{Client}.

(** *** The monitored set only grows *)

Lemma keeps_ret {A} (a : A) : keeps (ret a).
Proof. by intros w. Qed.

Lemma keeps_raise {A} (e : exn) : keeps (@raise World A e).
Proof. by intros w. Qed.

Lemma keeps_bind {A B} (c : M World A) (k : A -> M World B) :
  keeps c -> (forall a, keeps (k a)) -> keeps (bind c k).
Proof.
  intros Hc Hk w. unfold bind. specialize (Hc w).
  destruct (c w) as [[a|e] w1]; cbn in *; [|done].
  etrans; [exact Hc | apply Hk].
Qed.

Lemma keeps_Path_exists p : keeps (Path_exists p).
Proof. by intros w. Qed.

Lemma keeps_Path_write_text p content : keeps (Path_write_text p content).
Proof.
  intros w. unfold Path_write_text. by destruct (write_text p content (os w)).
Qed.

Lemma keeps_ctx_info ctx msg : keeps (ctx_info ctx msg).
Proof. by destruct ctx; intros w. Qed.

Lemma keeps_monitored_projects_add project_id :
  keeps (monitored_projects_add project_id).
Proof. intros w. cbn. set_solver. Qed.

Lemma keeps_prove_from_file req : keeps (prove_from_file req).
Proof.
  intros w. unfold prove_from_file.
  by destruct (Project_prove_from_file req (nodes (os w)) (service w)).
Qed.

Lemma keeps_from_id project_id : keeps (from_id project_id).
Proof.
  intros w. unfold from_id. by destruct (Project_from_id project_id (service w)).
Qed.

Lemma keeps_list_projects limit : keeps (list_projects limit).
Proof.
  intros w. unfold list_projects.
  by destruct (Project_list_projects limit (service w)).
Qed.

Lemma keeps_get_solution project output_path :
  keeps (get_solution project output_path).
Proof.
  intros w. unfold get_solution.
  by destruct (Project_get_solution project output_path (nodes (os w))
                 (service w)) as [[r ns] sv].
Qed.

Lemma keeps_frame_ret {A} (a : A) : keeps_in_frame (ret a).
Proof. by intros f. Qed.

Lemma keeps_frame_bind {A B} (c : M Frame A) (k : A -> M Frame B) :
  keeps_in_frame c -> (forall a, keeps_in_frame (k a)) ->
  keeps_in_frame (bind c k).
Proof.
  intros Hc Hk f. unfold bind. specialize (Hc f).
  destruct (c f) as [[a|e] f1]; cbn in *; [|done].
  etrans; [exact Hc | apply Hk].
Qed.

Lemma keeps_in_world {A} (c : M World A) : keeps c -> keeps_in_frame (in_world c).
Proof.
  intros Hc f. unfold in_world. specialize (Hc (world f)).
  by destruct (c (world f)).
Qed.

Lemma keeps_data_set k v : keeps_in_frame (data_set k v).
Proof. by intros f. Qed.

Lemma keeps_gets_data : keeps_in_frame (gets data).
Proof. by intros f. Qed.

Lemma keeps_try_except {A} (body : M Frame A) (handler : exn -> M Frame A) :
  keeps_in_frame body -> (forall e, keeps_in_frame (handler e)) ->
  keeps_in_frame (try_except_Exception body handler).
Proof.
  intros Hb Hh f. unfold try_except_Exception. specialize (Hb f).
  destruct (body f) as [[a|e] f1]; cbn in *; [done|].
  destruct (isinstance_Exception e); [|done].
  etrans; [exact Hb | apply Hh].
Qed.

Lemma keeps_with_TemporaryDirectory {A} (body : string -> M Frame A) :
  (forall d, keeps_in_frame (body d)) ->
  keeps_in_frame (with_TemporaryDirectory world set_world body).
Proof.
  intros Hb f. unfold with_TemporaryDirectory.
  destruct (mkdtemp (os (world f))) as [[d|e] o]; [|done].
  match goal with |- context [body d ?f0] =>
    specialize (Hb d f0); destruct (body d f0) as [r f1] end.
  exact Hb.
Qed.

Lemma keeps_with_data {A} (d : dict) (body : M Frame A) :
  keeps_in_frame body -> keeps (with_data d body).
Proof.
  intros Hb w. unfold with_data. specialize (Hb {| data := d; world := w |}).
  by destruct (body _).
Qed.

Create HintDb keeps.
#[local] Hint Resolve keeps_ret keeps_raise keeps_Path_exists
  keeps_Path_write_text keeps_ctx_info keeps_monitored_projects_add
  keeps_prove_from_file keeps_from_id keeps_list_projects keeps_get_solution
  keeps_frame_ret keeps_in_world keeps_data_set keeps_gets_data : keeps.

Ltac keeps_step :=
  first
    [ apply keeps_bind; [|intros ?]
    | apply keeps_frame_bind; [|intros ?]
    | apply keeps_with_data
    | apply keeps_try_except; [|intros ?]
    | apply keeps_with_TemporaryDirectory; intros ?
    | progress eauto with keeps
    | match goal with
      | |- keeps (if ?b then _ else _) => destruct b
      | |- keeps_in_frame (if ?b then _ else _) => destruct b
      | |- keeps (match ?o with Some _ => _ | None => _ end) => destruct o
      | |- keeps_in_frame (match ?o with Some _ => _ | None => _ end) =>
          destruct o
      | |- keeps_in_frame (gets _) => by intros ?
      | |- keeps_in_frame (in_world (Path_read_text _)) => by intros ?
      | |- keeps_in_frame (in_world (Path_absolute _)) => by intros ?
      end ].

Lemma keeps_invoke (e : Endpoint) : keeps (invoke e).
Proof.
  destruct e; cbn [invoke];
    unfold prove_lean_file, prove_informal, get_project_status,
      list_recent_projects, prove_lean_code, prove_informal_text,
      list_projects_resource, get_project_resource;
    repeat keeps_step.
Qed.

(** C8: no endpoint removes an identifier from the monitored set: after
    an invocation, whether it returned or raised, the set contains what it
    contained before. *)
Theorem monitored_projects_append_only (e : Endpoint) (w : World) :
  monitored_projects w ⊆ monitored_projects (snd (invoke e w)).
Proof. apply keeps_invoke. Qed.

(** The same over any sequence of invocations. *)
Lemma monitored_projects_grow (es : list Endpoint) (w : World) :
  monitored_projects w ⊆ monitored_projects (invoke_all es w).
Proof.
  unfold invoke_all. revert w. induction es as [|e es IH]; intros w; cbn; [done|].
  etrans; [apply keeps_invoke | apply IH].
Qed.

(** *** Submission *)

Lemma prove_from_file_returns (req : SubmitRequest) (w : World) (id : string)
    (sv : Service) :
  Project_prove_from_file req (nodes (os w)) (service w) = (Return id, sv) ->
  prove_from_file req w
  = (Return id, set_service sv (log_call (CallProveFromFile req) w)).
Proof. intros Hsub. unfold prove_from_file. by rewrite Hsub. Qed.

(** What a submission does once the client has accepted it. *)
Lemma submit_and_record (req : SubmitRequest) (suffix : string) (w : World)
    (id : string) (sv : Service) :
  Project_prove_from_file req (nodes (os w)) (service w) = (Return id, sv) ->
  exists w',
    (project_id <- prove_from_file req ;;
     monitored_projects_add project_id ;;
     ret ("Project started with ID: " +:+ project_id +:+ suffix)) w
    = (Return ("Project started with ID: " +:+ id +:+ suffix), w')
    /\ id ∈ monitored_projects w'
    /\ calls w' = calls w ++ [CallProveFromFile req].
Proof.
  intros Hsub. eexists. unfold bind at 1.
  rewrite (prove_from_file_returns _ _ _ _ Hsub).
  cbn. split; [reflexivity|]. split; [set_solver | reflexivity].
Qed.

Lemma ctx_info_world (ctx : option Context) (msg : string) (w : World) :
  exists w', ctx_info ctx msg w = (Return tt, w')
    /\ os w' = os w /\ service w' = service w /\ calls w' = calls w
    /\ monitored_projects w' = monitored_projects w.
Proof. destruct ctx; eexists; cbn; eauto. Qed.

(** C1: a submission tool whose input is valid (for the file tools, the
    file exists) and whose request the client answers with an identifier
    returns a text that contains this very identifier, and the identifier is
    in the monitored set when the call returns. The request is the only call
    made to the client. *)
Theorem submission_returns_id (e : Endpoint) (req : SubmitRequest) (w : World)
    (id : string) (sv : Service) :
  submission_request e = Some req ->
  (forall path, input_file_path req = Some path -> path_exists path (os w) = true) ->
  Project_prove_from_file req (nodes (os w)) (service w) = (Return id, sv) ->
  exists text w',
    invoke e w = (Return text, w')
    /\ contains id text
    /\ id ∈ monitored_projects w'
    /\ calls w' = calls w ++ [CallProveFromFile req].
Proof.
  intros Hreq Hvalid Hsub.
  destruct e; cbn in Hreq; simplify_eq; cbn [invoke];
    unfold prove_lean_file, prove_informal, prove_lean_code,
      prove_informal_text;
    try (unfold bind at 1, Path_exists, gets;
         rewrite (Hvalid _ eq_refl); cbn [negb]);
    unfold bind at 1;
    match goal with |- context [ctx_info ?c ?m w] =>
      destruct (ctx_info_world c m w) as (w1 & -> & Hos & Hsv & Hcalls & _) end;
    rewrite <- Hos, <- Hsv in Hsub;
    first
      [ destruct (submit_and_record _ "." _ _ _ Hsub) as (w' & Heq & Hin & Hc);
        rewrite Heq
      | destruct (submit_and_record _ ". You will be notified when it completes."
                    _ _ _ Hsub) as (w' & Heq & Hin & Hc);
        rewrite Heq ];
    do 2 eexists; (split; [reflexivity|]); (split; [apply contains_intro|]);
    (split; [exact Hin | by rewrite Hc, Hcalls]).
Qed.

(** C4: a file tool given a path that does not exist raises
    [FileNotFoundError] naming the path, and leaves the world as it was: the
    trace of client calls has no new entry. *)
Theorem missing_file_fails_first (e : Endpoint) (req : SubmitRequest)
    (path : string) (w : World) :
  submission_request e = Some req ->
  input_file_path req = Some path ->
  path_exists path (os w) = false ->
  invoke e w = (Raise (mk_exn FileNotFoundError ("File not found: " +:+ path)), w)
  /\ calls (snd (invoke e w)) = calls w.
Proof.
  intros Hreq Hpath Hmissing.
  destruct e; cbn in Hreq; simplify_eq; cbn in Hpath; simplify_eq; cbn [invoke];
    unfold prove_lean_file, prove_informal, bind, Path_exists, gets;
    rewrite Hmissing; cbn; done.
Qed.

(** *** Listing *)

Lemma lookup_project_lines (projects : list (Project datetime)) (i : nat) :
  map project_line projects !! i = project_line <$> projects !! i.
Proof. apply list_lookup_fmap. Qed.

(** C7: with [limit = n], a client that answers with exactly [n] projects
    and no save path, [list_recent_projects] returns [n] lines joined by line
    feeds, the line at each position made from the project at that position
    as [Project: <id>, Status: <status>, Created: <created_at>]. *)
Theorem list_recent_projects_lines (limit : Z) (save_to : option string)
    (w : World) (projects : list (Project datetime)) (cursor : option string)
    (sv : Service) :
  truthy save_to = false ->
  Project_list_projects limit (service w) = (Return (projects, cursor), sv) ->
  Z.of_nat (length projects) = limit ->
  exists lines w',
    list_recent_projects limit save_to w = (Return (join LF lines), w')
    /\ Z.of_nat (length lines) = limit
    /\ forall i, lines !! i =
         (fun p => "Project: " +:+ project_id p
                   +:+ ", Status: " +:+ status_value (status p)
                   +:+ ", Created: " +:+ datetime_str (created_at p))
         <$> projects !! i.
Proof.
  intros Hsave Hlist Hlen.
  exists (map project_line projects). eexists.
  split; [|split].
  - unfold list_recent_projects, bind, list_projects. rewrite Hlist. cbn [fst].
    destruct save_to as [path|]; [rewrite Hsave|]; reflexivity.
  - by rewrite length_map.
  - intros i. apply lookup_project_lines.
Qed.

(** *** Status *)

Ltac norm :=
  cbn -[dumps mkdtemp path_exists read_text write_text rmtree path_absolute
        path_join status_data truthy].

Ltac run_status :=
  unfold get_project_status, get_project_resource, bind, from_id, with_data,
    try_except_Exception, with_TemporaryDirectory, in_world, get_solution,
    Path_exists, Path_read_text, Path_write_text, Path_absolute, data_set,
    gets, modify, ret;
  norm.

(** Rewrites with the first hypothesis that applies, then normalises. *)
Ltac step :=
  match goal with
  | Heq : ?lhs = _ |- context [?lhs] => rewrite Heq; norm
  end.

Lemma status_data_flat (p : Project datetime) (extra : dict) :
  Forall (fun kv => flat (snd kv) = true) extra ->
  Forall (fun kv => flat (snd kv) = true) (status_data p ++ extra).
Proof.
  intros Hextra. apply Forall_app. split; [|exact Hextra].
  unfold status_data. repeat constructor; cbn; by destruct (_ : option string).
Qed.

Lemma extras_wf (p : Project datetime) (extra : dict) :
  extras extra ->
  Forall (fun kv => flat (snd kv) = true) (status_data p ++ extra)
  /\ NoDup (dict_keys (status_data p ++ extra)).
Proof.
  intros Hex. split.
  - apply status_data_flat. destruct Hex; repeat constructor.
  - destruct Hex; apply (bool_decide_unpack _); vm_compute; exact I.
Qed.

(** A member of a status response is the entry of the [dict] printed. *)
Lemma status_response_field (p : Project datetime) (extra : dict) (k : string) :
  extras extra ->
  response_field k (dumps (JDict (status_data p ++ extra)) 2)
  = dict_get k (status_data p ++ extra).
Proof.
  intros Hex. destruct (extras_wf p extra Hex) as [Hflat Hnd].
  by apply response_field_dumps.
Qed.

Lemma status_response_metadata (p : Project datetime) (extra : dict) :
  extras extra ->
  status_metadata (dumps (JDict (status_data p ++ extra)) 2) = metadata_of p.
Proof.
  intros Hex. unfold status_metadata. cbn [map].
  rewrite !status_response_field by done. reflexivity.
Qed.


Section Complete.

Variables (e : Endpoint) (pid : string) (w : World) (p : Project datetime)
  (sv1 : Service) (d : string) (o1 : os_state).
Hypothesis Hquery : status_query e = Some pid.
Hypothesis Hfetch : Project_from_id pid (service w) = (Return p, sv1).
Hypothesis Hstatus : status p = COMPLETE.
Hypothesis Htmp : mkdtemp (os w) = (Return d, o1).

Ltac start :=
  destruct e; cbn in Hquery; simplify_eq; cbn [invoke]; run_status;
  rewrite Hfetch; norm; rewrite Hstatus, bool_decide_eq_true_2 by done; norm;
  rewrite Htmp; norm.

(** The retrieval raises an [Exception]: its text goes into
    [solution_error]. *)
Lemma status_retrieval_raises (ns2 : gmap string node) (sv2 : Service)
    (err : exn) :
  Project_get_solution p (path_join d "solution.lean") (nodes o1) sv1
  = (Raise err, ns2, sv2) ->
  isinstance_Exception err = true ->
  exists w',
    invoke e w
    = (Return (dumps (JDict (status_data p
                             ++ [("solution_error", JStr (exn_str err))])) 2), w').
Proof. intros Hget Herr. start; repeat step; by eexists. Qed.

(** The retrieval returns and leaves no file: the status data alone. *)
Lemma status_retrieval_noop (ns2 : gmap string node) (sv2 : Service) :
  Project_get_solution p (path_join d "solution.lean") (nodes o1) sv1
  = (Return tt, ns2, sv2) ->
  path_exists (path_join d "solution.lean") (set_nodes (fun _ => ns2) o1) = false ->
  exists w', invoke e w = (Return (dumps (JDict (status_data p ++ [])) 2), w').
Proof.
  intros Hget Hno. rewrite List.app_nil_r. start; repeat step; by eexists.
Qed.



Section Retrieved.

Variables (ns2 : gmap string node) (sv2 : Service) (t : string).
Hypothesis Hget :
  Project_get_solution p (path_join d "solution.lean") (nodes o1) sv1
  = (Return tt, ns2, sv2).
Hypothesis Hread :
  read_text (path_join d "solution.lean") (set_nodes (fun _ => ns2) o1)
  = Return t.

Ltac retrieve :=
  start; rewrite Hget; norm;
  rewrite (read_text_exists _ _ _ Hread); norm; rewrite Hread; norm.


(** The solution is read and the copy cannot be written. *)
Lemma status_solution_unsaved (save_path : string) (o3 : os_state) (err : exn) :
  save_path_of e = Some save_path ->
  truthy (Some save_path) = true ->
  write_text save_path t (set_nodes (fun _ => ns2) o1) = (Raise err, o3) ->
  exists w',
    invoke e w
    = (Return (dumps (JDict (status_data p
                             ++ [("solution", JStr t);
                                 ("solution_error", JStr (exn_str err))])) 2),
       w').
Proof.
  intros Hpath Hsave Hwrite.
  destruct (write_text_raises _ _ _ _ _ Hwrite) as [Herr _].
  retrieve; cbn [save_path_of] in Hpath; try done.
  subst save_solution_to. rewrite Hsave. norm. rewrite Hwrite. norm.
  rewrite Herr. norm. by eexists.
Qed.

(** The solution is read and the copy is written. *)
Lemma status_solution_saved (save_path : string) (o3 : os_state) :
  save_path_of e = Some save_path ->
  truthy (Some save_path) = true ->
  write_text save_path t (set_nodes (fun _ => ns2) o1) = (Return tt, o3) ->
  exists w',
    invoke e w
    = (Return (dumps (JDict (status_data p
                             ++ [("solution", JStr t);
                                 ("saved_to",
                                  JStr (path_absolute o3 save_path))])) 2),
       w')
    /\ os w' = rmtree d o3.
Proof.
  intros Hpath Hsave Hwrite.
  retrieve; cbn [save_path_of] in Hpath; try done.
  subst save_solution_to. rewrite Hsave. norm. rewrite Hwrite. norm.
  by eexists.
Qed.

End Retrieved.

End Complete.




(** C2: the project is complete and the retrieval of the solution raises an
    error whose text is [m]. The status endpoint does not raise: it returns a
    response with the six members of the status metadata and a member
    [solution_error] equal to [m]. *)
Theorem retrieval_error_is_reported (e : Endpoint) (pid : string) (w : World)
    (p : Project datetime) (sv1 sv2 : Service) (d : string) (o1 : os_state)
    (ns2 : gmap string node) (err : exn) (m : string) :
  status_query e = Some pid ->
  Project_from_id pid (service w) = (Return p, sv1) ->
  status p = COMPLETE ->
  mkdtemp (os w) = (Return d, o1) ->
  Project_get_solution p (path_join d "solution.lean") (nodes o1) sv1
  = (Raise err, ns2, sv2) ->
  isinstance_Exception err = true ->
  exn_str err = m ->
  exists response w',
    invoke e w = (Return response, w')
    /\ status_metadata response = metadata_of p
    /\ response_field "solution_error" response = Some (JStr m).
Proof.
  intros He Hfetch Hst Htmp Hget Herr <-.
  destruct (status_retrieval_raises _ _ _ _ _ _ _ He Hfetch Hst Htmp _ _ _
              Hget Herr) as [w' Hw].
  eexists _, w'. split; [exact Hw|].
  split; [apply status_response_metadata | rewrite status_response_field];
    by eauto using extras.
Qed.



(** C6, as the code has it: [get_project_status] is given a save path [p]
    that is not empty, the project is complete, the retrieval leaves the text
    [t], and writing [t] to [p] does not raise. Then the response has
    [solution] equal to [t] and [saved_to] equal to the absolute form of [p];
    the file at [p] holds [t] when the temporary directory is removed, and
    still holds it when the call returns, provided [p] is not inside that
    directory. *)
Theorem solution_is_saved (pid save_path : string) (w : World)
    (p : Project datetime) (sv1 sv2 : Service) (d : string) (o1 o3 : os_state)
    (ns2 : gmap string node) (t : string) :
  save_path <> "" ->
  Project_from_id pid (service w) = (Return p, sv1) ->
  status p = COMPLETE ->
  mkdtemp (os w) = (Return d, o1) ->
  Project_get_solution p (path_join d "solution.lean") (nodes o1) sv1
  = (Return tt, ns2, sv2) ->
  read_text (path_join d "solution.lean") (set_nodes (fun _ => ns2) o1)
  = Return t ->
  write_text save_path t (set_nodes (fun _ => ns2) o1) = (Return tt, o3) ->
  exists response w',
    get_project_status pid (Some save_path) w = (Return response, w')
    /\ response_field "solution" response = Some (JStr t)
    /\ response_field "saved_to" response
       = Some (JStr (path_absolute (os w) save_path))
    /\ response_field "solution_error" response = None
    /\ read_text save_path o3 = Return t
    /\ os w' = rmtree d o3
    /\ (path_under d (path_absolute (os w) save_path) = false ->
        read_text save_path (os w') = Return t).
Proof.
  intros Hne Hfetch Hst Htmp Hget Hread Hwrite.
  assert (Hsave : truthy (Some save_path) = true).
  { cbn. by rewrite bool_decide_eq_false_2. }
  destruct (status_solution_saved (GetProjectStatus pid (Some save_path))
              _ _ _ _ _ _ eq_refl Hfetch Hst Htmp _ _ _ Hget Hread _ _ eq_refl
              Hsave Hwrite) as (w' & Hw & Hos).
  assert (Hcwd : cwd o3 = cwd (os w)).
  { rewrite (write_text_cwd _ _ _ _ _ Hwrite). cbn.
    exact (mkdtemp_cwd _ _ _ Htmp). }
  assert (Habs : path_absolute o3 save_path = path_absolute (os w) save_path).
  { unfold path_absolute. by rewrite Hcwd. }
  pose proof (read_after_write _ _ _ _ Hwrite) as Hfile.
  eexists _, w'. split; [exact Hw|].
  rewrite !status_response_field by eauto using extras.
  rewrite Habs, Hos. repeat split; try done.
  intros Hout. rewrite read_after_rmtree; [exact Hfile | by rewrite Habs].
Qed.

(** C9: the project is complete and the retrieval returns without leaving
    the output file. The status endpoint returns the status data and nothing
    else: the response has no member [solution], [solution_error] or
    [saved_to]. *)
Theorem noop_retrieval_gives_metadata_only (e : Endpoint) (pid : string)
    (w : World) (p : Project datetime) (sv1 sv2 : Service) (d : string)
    (o1 : os_state) (ns2 : gmap string node) :
  status_query e = Some pid ->
  Project_from_id pid (service w) = (Return p, sv1) ->
  status p = COMPLETE ->
  mkdtemp (os w) = (Return d, o1) ->
  Project_get_solution p (path_join d "solution.lean") (nodes o1) sv1
  = (Return tt, ns2, sv2) ->
  path_exists (path_join d "solution.lean") (set_nodes (fun _ => ns2) o1)
  = false ->
  exists response w',
    invoke e w = (Return response, w')
    /\ loads response = Some (JDict (status_data p))
    /\ status_metadata response = metadata_of p
    /\ response_field "solution" response = None
    /\ response_field "solution_error" response = None
    /\ response_field "saved_to" response = None.
Proof.
  intros He Hfetch Hst Htmp Hget Hno.
  destruct (status_retrieval_noop _ _ _ _ _ _ _ He Hfetch Hst Htmp _ _ Hget Hno)
    as [w' Hw].
  eexists _, w'. split; [exact Hw|].
  rewrite !status_response_field, status_response_metadata
    by eauto using extras.
  destruct (extras_wf p [] extras_none) as [Hflat Hnd].
  rewrite loads_dumps_flat by done. by rewrite List.app_nil_r.
Qed.

(** C10: [get_project_status] is given a save path, the retrieval leaves the
    text [t], and writing the copy raises an error whose text is [m]. The
    call does not raise: the response has [solution] equal to [t],
    [solution_error] equal to [m], and no member [saved_to]. *)
Theorem unsaved_copy_is_reported (pid save_path : string) (w : World)
    (p : Project datetime) (sv1 sv2 : Service) (d : string) (o1 o3 : os_state)
    (ns2 : gmap string node) (t : string) (err : exn) (m : string) :
  save_path <> "" ->
  Project_from_id pid (service w) = (Return p, sv1) ->
  status p = COMPLETE ->
  mkdtemp (os w) = (Return d, o1) ->
  Project_get_solution p (path_join d "solution.lean") (nodes o1) sv1
  = (Return tt, ns2, sv2) ->
  read_text (path_join d "solution.lean") (set_nodes (fun _ => ns2) o1)
  = Return t ->
  write_text save_path t (set_nodes (fun _ => ns2) o1) = (Raise err, o3) ->
  exn_str err = m ->
  exists response w',
    get_project_status pid (Some save_path) w = (Return response, w')
    /\ response_field "solution" response = Some (JStr t)
    /\ response_field "solution_error" response = Some (JStr m)
    /\ response_field "saved_to" response = None.
Proof.
  intros Hne Hfetch Hst Htmp Hget Hread Hwrite <-.
  assert (Hsave : truthy (Some save_path) = true).
  { cbn. by rewrite bool_decide_eq_false_2. }
  destruct (status_solution_unsaved (GetProjectStatus pid (Some save_path))
              _ _ _ _ _ _ eq_refl Hfetch Hst Htmp _ _ _ Hget Hread _ _ _ eq_refl
              Hsave Hwrite) as [w' Hw].
  eexists _, w'. split; [exact Hw|].
  rewrite !status_response_field by eauto using extras. done.
Qed.

(** *** Further properties: listing *)

Lemma project_entry_plain (p : Project datetime) : plain (project_entry p).
Proof.
  split.
  - unfold project_entry. repeat constructor; cbn; by destruct (_ : option string).
  - apply (bool_decide_unpack _). vm_compute. exact I.
Qed.

(** X1: the resource [projects] asks the client for 20 projects and prints
    what it gets as a JSON list: read back, the response is one object per
    project, in the client's order, each with the five members [project_id],
    [status], [created_at], [file_name] and [description]. The file system
    is not touched. *)
Theorem projects_resource_lists_all (w : World)
    (projects : list (Project datetime)) (cursor : option string)
    (sv : Service) :
  Project_list_projects 20 (service w) = (Return (projects, cursor), sv) ->
  exists response w',
    list_projects_resource w = (Return response, w')
    /\ loads response = Some (JList (map (fun p => JDict (project_entry p)) projects))
    /\ calls w' = calls w ++ [CallListProjects 20]
    /\ os w' = os w.
Proof.
  intros Hlist. do 2 eexists. split; [|split; [|split]].
  - unfold list_projects_resource, bind, list_projects. rewrite Hlist.
    cbn [fst]. reflexivity.
  - change (loads (dumps (JList (map (fun p => JDict (project_entry p))
                                    projects)) 2)
            = Some (JList (map (fun p => JDict (project_entry p)) projects))).
    rewrite <- (map_map project_entry JDict projects).
    apply loads_dumps_dicts. apply Forall_map, Forall_forall.
    intros p _. apply project_entry_plain.
  - reflexivity.
  - reflexivity.
Qed.

(** X2: given a save path that is not empty, and a write that does not
    raise, [list_recent_projects] returns [Project list saved to <path>]
    instead of the listing, and the file at the path holds the listing: the
    very text the call returns when no save path is given. *)
Theorem list_recent_projects_saved (limit : Z) (path : string) (w : World)
    (listing : string) (o' : os_state) :
  path <> "" ->
  fst (list_recent_projects limit None w) = Return listing ->
  write_text path listing (os w) = (Return tt, o') ->
  exists w',
    list_recent_projects limit (Some path) w
    = (Return ("Project list saved to " +:+ path), w')
    /\ read_text path (os w') = Return listing.
Proof.
  intros Hne Hnone Hwrite.
  unfold list_recent_projects, bind, list_projects in Hnone |- *.
  destruct (Project_list_projects limit (service w)) as [[[projects c]|e] sv];
    cbn in Hnone; [|done].
  injection Hnone as <-.
  cbn [fst truthy]. rewrite bool_decide_eq_false_2 by done. cbn [negb].
  unfold Path_write_text. cbn -[write_text join]. rewrite Hwrite.
  eexists. split; [reflexivity|]. cbn.
  exact (read_after_write _ _ _ _ Hwrite).
Qed.

(** X3: when the write to the save path raises, [list_recent_projects]
    raises the same exception: nothing catches it here, unlike the copy of
    a solution. The client has been called by then. *)
Theorem list_recent_projects_save_fails (limit : Z) (path : string) (w : World)
    (listing : string) (o' : os_state) (err : exn) :
  path <> "" ->
  fst (list_recent_projects limit None w) = Return listing ->
  write_text path listing (os w) = (Raise err, o') ->
  exists w',
    list_recent_projects limit (Some path) w = (Raise err, w')
    /\ calls w' = calls w ++ [CallListProjects limit]
    /\ os w' = os w.
Proof.
  intros Hne Hnone Hwrite.
  destruct (write_text_raises _ _ _ _ _ Hwrite) as [_ ->].
  unfold list_recent_projects, bind, list_projects in Hnone |- *.
  destruct (Project_list_projects limit (service w)) as [[[projects c]|e] sv];
    cbn in Hnone; [|done].
  injection Hnone as <-.
  cbn [fst truthy]. rewrite bool_decide_eq_false_2 by done. cbn [negb].
  unfold Path_write_text. cbn -[write_text join]. rewrite Hwrite.
  eexists. split; [reflexivity|]. by destruct w as [[] ? ? ? ?].
Qed.

(** X4: a failure of the client's listing goes through both listing
    endpoints as it is, whatever its class; nothing is written, also when a
    save path is given. *)
Theorem listing_failure_propagates (e : Endpoint) (limit : Z) (w : World)
    (err : exn) (sv : Service) :
  listing_limit e = Some limit ->
  Project_list_projects limit (service w) = (Raise err, sv) ->
  exists w',
    invoke e w = (Raise err, w')
    /\ os w' = os w
    /\ calls w' = calls w ++ [CallListProjects limit].
Proof.
  intros He Hlist.
  destruct e; cbn in He; simplify_eq; cbn [invoke];
    unfold list_recent_projects, list_projects_resource, bind, list_projects;
    rewrite Hlist; by eexists.
Qed.

(** *** Further properties: failures of the client *)

(** X5: when the client cannot fetch the project, a status endpoint raises
    what the client raised, also an [Exception]: only the retrieval of the
    solution is guarded. No retrieval is tried and the file system is as it
    was. *)
Theorem fetch_failure_propagates (e : Endpoint) (pid : string) (w : World)
    (err : exn) (sv : Service) :
  status_query e = Some pid ->
  Project_from_id pid (service w) = (Raise err, sv) ->
  exists w',
    invoke e w = (Raise err, w')
    /\ os w' = os w
    /\ calls w' = calls w ++ [CallFromId pid].
Proof.
  intros He Hfetch.
  destruct e; cbn in He; simplify_eq; cbn [invoke];
    unfold get_project_status, get_project_resource, bind, from_id;
    rewrite Hfetch; by eexists.
Qed.

(** X6: when the client refuses a submission, the tool raises what the
    client raised and [monitored_projects] is as it was: an identifier is
    recorded only for a submission that succeeded. *)
Theorem failed_submission_not_monitored (e : Endpoint) (req : SubmitRequest)
    (w : World) (err : exn) (sv : Service) :
  submission_request e = Some req ->
  (forall path, input_file_path req = Some path -> path_exists path (os w) = true) ->
  Project_prove_from_file req (nodes (os w)) (service w) = (Raise err, sv) ->
  exists w',
    invoke e w = (Raise err, w')
    /\ monitored_projects w' = monitored_projects w
    /\ calls w' = calls w ++ [CallProveFromFile req].
Proof.
  intros Hreq Hvalid Hsub.
  destruct e; cbn in Hreq; simplify_eq; cbn [invoke];
    unfold prove_lean_file, prove_informal, prove_lean_code,
      prove_informal_text;
    try (unfold bind at 1, Path_exists, gets;
         rewrite (Hvalid _ eq_refl); cbn [negb]);
    unfold bind at 1;
    match goal with |- context [ctx_info ?c ?m w] =>
      destruct (ctx_info_world c m w) as (w1 & -> & Hos & Hsv & Hcalls & Hmon) end;
    rewrite <- Hos, <- Hsv in Hsub;
    unfold bind, prove_from_file; rewrite Hsub;
    eexists; (split; [reflexivity|]); cbn; by rewrite Hmon, Hcalls.
Qed.

(** *** Further properties: what an invocation changes *)

#[local] Set Warnings "-clear-no-such-hyp".

Ltac unfold_endpoints :=
  unfold prove_lean_file, prove_informal, prove_lean_code, prove_informal_text,
    list_recent_projects, list_projects_resource, list_projects,
    prove_from_file, monitored_projects_add, ctx_info;
  run_status.

(** Case analysis on every answer of the client and of the file system. *)
Ltac cases := repeat (case_match; simplify_eq; norm).

Lemma size_add (id : string) (X : gset string) : size ({[id]} ∪ X) <= size X + 1.
Proof.
  rewrite size_union_alt, size_singleton.
  pose proof (subseteq_size (X ∖ {[id]}) X ltac:(set_solver)). lia.
Qed.

Lemma submissions_app (a b : list Call) :
  submissions (a ++ b) = submissions a + submissions b.
Proof.
  induction a as [|[] a IH]; cbn; [reflexivity|..]; by rewrite IH.
Qed.

(** The set after an invocation, exactly. *)
Lemma monitored_after (e : Endpoint) (w : World) :
  match submission_request e, fst (invoke e w) with
  | Some req, Return _ =>
      exists id sv,
        Project_prove_from_file req (nodes (os w)) (service w) = (Return id, sv)
        /\ monitored_projects (snd (invoke e w)) = {[id]} ∪ monitored_projects w
  | _, _ => monitored_projects (snd (invoke e w)) = monitored_projects w
  end.
Proof.
  destruct e; cbn [submission_request invoke]; unfold_endpoints; cases;
    try reflexivity; by do 2 eexists.
Qed.

(** The calls an invocation adds to the trace, and how many identifiers it
    can add to the set. *)
Lemma invoke_trace (e : Endpoint) (w : World) :
  exists new,
    calls (snd (invoke e w)) = calls w ++ new
    /\ Forall fire_and_return new
    /\ size (monitored_projects (snd (invoke e w)))
       <= size (monitored_projects w) + submissions new.
Proof.
  destruct e; cbn [invoke]; unfold_endpoints; cases;
    (eexists; split;
     [ first [ symmetry; apply List.app_nil_r
             | rewrite <- ?List.app_assoc; reflexivity ]
     | split;
       [ repeat constructor; cbn; naive_solver
       | cbn; first [ apply size_add | lia ] ] ]).
Qed.

(** X7: an invocation changes [monitored_projects] in one way only: a
    submission tool that returns has added the identifier the client
    answered with, and nothing else; every other invocation, and a
    submission that raises, leaves the set as it was. *)
Theorem monitored_projects_exact (e : Endpoint) (w : World) :
  match submission_request e, fst (invoke e w) with
  | Some req, Return _ =>
      exists id sv,
        Project_prove_from_file req (nodes (os w)) (service w) = (Return id, sv)
        /\ monitored_projects (snd (invoke e w)) = {[id]} ∪ monitored_projects w
  | _, _ => monitored_projects (snd (invoke e w)) = monitored_projects w
  end.
Proof. apply monitored_after. Qed.

(** X8: every submission the adapter makes is non-blocking
    ([wait_for_completion=False]) and carries either a file path or a text,
    never both and never neither; this holds of the whole trace after any
    sequence of invocations. *)
Theorem submissions_never_wait (es : list Endpoint) (w : World) :
  Forall fire_and_return (calls w) ->
  Forall fire_and_return (calls (invoke_all es w)).
Proof.
  unfold invoke_all. revert w.
  induction es as [|e es IH]; intros w Hw; cbn [foldl]; [exact Hw|].
  apply IH. destruct (invoke_trace e w) as (new & -> & Hnew & _).
  by apply Forall_app.
Qed.

(** X9: over any sequence of invocations, [monitored_projects] gains at
    most one identifier for each submission the client has received. *)
Theorem monitored_bounded_by_submissions (es : list Endpoint) (w : World) :
  size (monitored_projects (invoke_all es w)) + submissions (calls w)
  <= size (monitored_projects w) + submissions (calls (invoke_all es w)).
Proof.
  unfold invoke_all. revert w.
  induction es as [|e es IH]; intros w; cbn [foldl]; [lia|].
  specialize (IH (snd (invoke e w))).
  destruct (invoke_trace e w) as (new & Hcalls & _ & Hsize).
  rewrite Hcalls, submissions_app in IH. lia.
Qed.

(** X10: an identifier the client answered a submission with stays in
    [monitored_projects] through every later invocation. *)
Theorem submitted_id_stays (e : Endpoint) (req : SubmitRequest) (w : World)
    (id text : string) (sv : Service) (es : list Endpoint) :
  submission_request e = Some req ->
  Project_prove_from_file req (nodes (os w)) (service w) = (Return id, sv) ->
  fst (invoke e w) = Return text ->
  id ∈ monitored_projects (invoke_all (e :: es) w).
Proof.
  intros Hreq Hsub Hret.
  pose proof (monitored_after e w) as Hafter. rewrite Hreq, Hret in Hafter.
  destruct Hafter as (id' & sv' & Hsub' & Hmon).
  rewrite Hsub in Hsub'. injection Hsub' as <- <-.
  unfold invoke_all. cbn [foldl].
  assert (Hgrow : monitored_projects (snd (invoke e w))
                  ⊆ monitored_projects (invoke_all es (snd (invoke e w)))).
  { generalize (snd (invoke e w)). unfold invoke_all.
    induction es as [|e' es IH]; intros w0; cbn [foldl]; [done|].
    etrans; [apply keeps_invoke | apply IH]. }
  apply Hgrow. rewrite Hmon. set_solver.
Qed.

(** X11: the submission tools, the resource [projects], and the listing
    tool without a save path leave the file system as it was, whatever the
    client answers. *)
Theorem file_system_untouched (e : Endpoint) (w : World) :
  touches_disk e = false ->
  os (snd (invoke e w)) = os w.
Proof.
  destruct e; cbn [touches_disk invoke]; intros Htouch; try done;
    unfold_endpoints; cases; try reflexivity.
Qed.

(** X12: an empty save path is no save path: [get_project_status] and
    [list_recent_projects] given [""] do what they do given [None]. *)
Theorem empty_save_path_is_none (pid : string) (limit : Z) (w : World) :
  get_project_status pid (Some "") w = get_project_status pid None w
  /\ list_recent_projects limit (Some "") w = list_recent_projects limit None w.
Proof. split; reflexivity. Qed.

(** X13: the resource [projects/{project_id}] is the tool
    [get_project_status] without a save path: in every world both return
    the same text, or raise the same exception, and leave the same world. *)
Theorem resource_is_tool_without_save (pid : string) (w : World) :
  get_project_resource pid w = get_project_status pid None w.
Proof. run_status; cases; reflexivity. Qed.

(** *** Further properties: the status endpoints *)

(** X14: for a project that is not complete, a status endpoint asks the
    client for nothing but the project and touches no file, also when a save
    path is given; the response reads back as the six status members. *)
Theorem no_retrieval_unless_complete (e : Endpoint) (pid : string) (w : World)
    (p : Project datetime) (sv1 : Service) :
  status_query e = Some pid ->
  Project_from_id pid (service w) = (Return p, sv1) ->
  status p <> COMPLETE ->
  exists response w',
    invoke e w = (Return response, w')
    /\ loads response = Some (JDict (status_data p))
    /\ calls w' = calls w ++ [CallFromId pid]
    /\ os w' = os w.
Proof.
  intros He Hfetch Hst.
  destruct (extras_wf p [] extras_none) as [Hflat Hnd].
  rewrite List.app_nil_r in Hflat, Hnd.
  destruct e; cbn in He; simplify_eq; cbn [invoke]; run_status; step;
    rewrite bool_decide_eq_false_2 by done; norm;
    do 2 eexists; (split; [reflexivity|]);
    (split; [by apply loads_dumps_flat | done]).
Qed.

(** X15: the temporary directory of a status call is gone when the call is
    over, with all that was put under it, on every way out: a response with
    or without a solution, a caught failure, an exception that is raised. *)
Theorem tempdir_always_removed (e : Endpoint) (pid : string) (w : World)
    (p : Project datetime) (sv1 : Service) (d : string) (o1 : os_state)
    (k : string) :
  status_query e = Some pid ->
  Project_from_id pid (service w) = (Return p, sv1) ->
  status p = COMPLETE ->
  mkdtemp (os w) = (Return d, o1) ->
  path_under d k = true ->
  nodes (os (snd (invoke e w))) !! k = None.
Proof.
  intros He Hfetch Hst Htmp Hk.
  destruct e; cbn in He; simplify_eq; cbn [invoke]; run_status;
    rewrite Hfetch; norm; rewrite Hst, bool_decide_eq_true_2 by done; norm;
    rewrite Htmp; norm; cases; by apply nodes_after_rmtree.
Qed.

(** X16: every response of a status endpoint reads back as the six status
    members, in the order of the source, followed by one of: nothing;
    [solution_error]; [solution]; [solution] and [saved_to]; [solution] and
    [solution_error]. [saved_to] is there only when a save path that is not
    empty was given. *)
Theorem status_response_shape (e : Endpoint) (pid : string) (w : World)
    (p : Project datetime) (sv1 : Service) (response : string) :
  status_query e = Some pid ->
  Project_from_id pid (service w) = (Return p, sv1) ->
  fst (invoke e w) = Return response ->
  exists extra,
    extras extra
    /\ loads response = Some (JDict (status_data p ++ extra))
    /\ (dict_get "saved_to" extra = None \/ truthy (save_path_of e) = true).
Proof.
  intros He Hfetch Hret.
  assert (Hshape : exists extra,
    extras extra
    /\ response = dumps (JDict (status_data p ++ extra)) 2
    /\ (dict_get "saved_to" extra = None \/ truthy (save_path_of e) = true)).
  { destruct e; cbn in He; simplify_eq; cbn [invoke save_path_of] in *;
      revert Hret; run_status; rewrite Hfetch; norm; cases; intros Hret;
      simplify_eq;
      match goal with
      | |- context [dumps (JDict (_ :: _ :: _ :: _ :: _ :: _ :: ?extra)) 2 = _] =>
          exists extra
      | |- context [dumps (JDict (status_data p)) 2 = _] => exists []
      end;
      (split; [constructor|]);
      (split; [apply (f_equal (fun x => dumps (JDict x) 2)); reflexivity|]);
      first [ left; reflexivity | right; first [reflexivity | assumption] ]. }
  destruct Hshape as (extra & Hex & -> & Hsaved).
  exists extra. split; [exact Hex|]. split; [|exact Hsaved].
  destruct (extras_wf p extra Hex) as [Hflat Hnd]. by apply loads_dumps_flat.
Qed.

(** X17: when no temporary directory can be made, a status endpoint on a
    complete project still returns: the response has the status metadata,
    the failure of [tempfile] in [solution_error], and no [solution]; the
    client is not asked for the solution. *)
Theorem tempdir_failure_reported (e : Endpoint) (pid : string) (w : World)
    (p : Project datetime) (sv1 : Service) (o1 : os_state) (err : exn) :
  status_query e = Some pid ->
  Project_from_id pid (service w) = (Return p, sv1) ->
  status p = COMPLETE ->
  mkdtemp (os w) = (Raise err, o1) ->
  exists response w',
    invoke e w = (Return response, w')
    /\ status_metadata response = metadata_of p
    /\ response_field "solution_error" response = Some (JStr (exn_str err))
    /\ response_field "solution" response = None
    /\ calls w' = calls w ++ [CallFromId pid].
Proof.
  intros He Hfetch Hst Htmp. pose proof (mkdtemp_raises _ _ _ Htmp) as Herr.
  assert (Hrun : exists w',
    invoke e w
    = (Return (dumps (JDict (status_data p
                             ++ [("solution_error", JStr (exn_str err))])) 2), w')
    /\ calls w' = calls w ++ [CallFromId pid]).
  { destruct e; cbn in He; simplify_eq; cbn [invoke]; run_status;
      rewrite Hfetch; norm; rewrite Hst, bool_decide_eq_true_2 by done; norm;
      repeat step; by eexists. }
  destruct Hrun as (w' & Hrun & Hcalls).
  eexists _, w'. split; [exact Hrun|].
  rewrite !status_response_field, status_response_metadata
    by eauto using extras.
  done.
Qed.

(** X18: an exception of the retrieval that is not an [Exception] (a
    cancellation, a keyboard interrupt) is not turned into a response: the
    status endpoint raises it, after the client has been asked for the
    project and for the solution. *)
Theorem interruption_passes_through (e : Endpoint) (pid : string) (w : World)
    (p : Project datetime) (sv1 sv2 : Service) (d : string) (o1 : os_state)
    (ns2 : gmap string node) (err : exn) :
  status_query e = Some pid ->
  Project_from_id pid (service w) = (Return p, sv1) ->
  status p = COMPLETE ->
  mkdtemp (os w) = (Return d, o1) ->
  Project_get_solution p (path_join d "solution.lean") (nodes o1) sv1
  = (Raise err, ns2, sv2) ->
  isinstance_Exception err = false ->
  exists w',
    invoke e w = (Raise err, w')
    /\ calls w'
       = calls w ++ [CallFromId pid;
                     CallGetSolution p (path_join d "solution.lean")].
Proof.
  intros He Hfetch Hst Htmp Hget Herr.
  destruct e; cbn in He; simplify_eq; cbn [invoke]; run_status;
    rewrite Hfetch; norm; rewrite Hst, bool_decide_eq_true_2 by done; norm;
    rewrite Htmp; norm; rewrite Hget; norm; rewrite Herr; norm;
    eexists; (split; [reflexivity|]); cbn; by rewrite <- List.app_assoc.
Qed.

End WithClient.
End AdapterFacts.

(** ** Runs on the client double *)

Module Scenarios.
Import Adapter AdapterFacts Double.

(** *** The model at work *)

Example path_join_tmp :
  path_join "/tmp/tmp0001" "solution.lean" = "/tmp/tmp0001/solution.lean".
Proof. reflexivity. Qed.

Example parent_of_file : parent "/home/out.lean" = "/home" /\ parent "/tmp" = "/".
Proof. split; reflexivity. Qed.

Example absolute_of_relative :
  path_absolute (os (world0 (script bar NoOp))) "out.lean" = "/home/out.lean".
Proof. reflexivity. Qed.

(** A quote, a line feed and a character above [~] in a [str]. *)
Example encode_str_escapes :
  encode_str (String DQUOTE (LF +:+ String (ascii_of_nat 233) "a"))
  = String DQUOTE
      (String BACKSLASH (String DQUOTE
         (String BACKSLASH ("n" +:+ String BACKSLASH ("u00e9a" +:+ String DQUOTE ""))))).
Proof. reflexivity. Qed.

Example listing_text :
  fst (list_recent_projects 10 None (world0 (script bar NoOp)))
  = Return ("Project: p-1, Status: COMPLETE, Created: 2025-01-02 03:04:05"
            +:+ LF
            +:+ "Project: p-2, Status: RUNNING, Created: 2025-01-03 10:00:00").
Proof. vm_compute. reflexivity. Qed.

Example listing_saved :
  fst (list_recent_projects 10 (Some "/tmp/list.txt") (world0 (script bar NoOp)))
  = Return "Project list saved to /tmp/list.txt".
Proof. vm_compute. reflexivity. Qed.

(** The resource [projects] prints a list of objects. *)
Example projects_resource_reads_back :
  match fst (list_projects_resource (world0 (script bar NoOp))) with
  | Return r => loads r
  | Raise _ => None
  end
  = Some (JList
            [ JDict [ ("project_id", JStr "p-1"); ("status", JStr "COMPLETE");
                      ("created_at", JStr "2025-01-02T03:04:05");
                      ("file_name", JStr "Foo.lean"); ("description", JNull) ];
              JDict [ ("project_id", JStr "p-2"); ("status", JStr "RUNNING");
                      ("created_at", JStr "2025-01-03T10:00:00");
                      ("file_name", JNull); ("description", JStr "bar") ] ]).
Proof. vm_compute. reflexivity. Qed.

(** What is not an [Exception] is not caught. *)
Example cancellation_passes :
  fst (get_project_status "p-1" None
         (world0 (script foo (Fails (mk_exn CancelledError "")))))
  = Raise (mk_exn CancelledError "").
Proof. vm_compute. reflexivity. Qed.

(** The temporary directory is gone when the call has returned, and the copy
    is on the disk. *)
Example tempdir_removed :
  let w' := snd (get_project_status "p-1" (Some "out.lean")
                   (world0 (script foo (Writes "theorem foo := trivial")))) in
  path_exists "/tmp/tmp0001" (os w') = false
  /\ path_exists "/tmp/tmp0001/solution.lean" (os w') = false
  /\ read_text "/home/out.lean" (os w') = Return "theorem foo := trivial".
Proof. vm_compute. repeat split. Qed.

(** *** The theorems on the double *)

(** The double answers the submission of [Foo.lean] with [p-1]. *)
Lemma submission_returns_id_witness :
  exists text w',
    invoke (ProveLeanFile "Foo.lean" (Some RequestContext))
      (world0 (script bar NoOp)) = (Return text, w')
    /\ contains "p-1" text
    /\ "p-1" ∈ monitored_projects w'
    /\ calls w' =
       [CallProveFromFile
          {| input_file_path := Some "Foo.lean";
             input_content := None;
             project_input_type := FORMAL_LEAN;
             formal_input_context := None;
             wait_for_completion := false |}].
Proof.
  eapply (submission_returns_id (ProveLeanFile "Foo.lean" (Some RequestContext))
            _ (world0 (script bar NoOp)) "p-1").
  - reflexivity.
  - intros path Hpath. injection Hpath as <-. vm_compute. reflexivity.
  - reflexivity.
Defined.

(** [Missing.lean] is not on the double's disk. *)
Lemma missing_file_fails_first_witness :
  invoke (ProveInformal "Missing.lean" None None) (world0 (script bar NoOp))
  = (Raise (mk_exn FileNotFoundError "File not found: Missing.lean"),
     world0 (script bar NoOp))
  /\ calls (snd (invoke (ProveInformal "Missing.lean" None None)
                   (world0 (script bar NoOp)))) = [].
Proof.
  eapply (missing_file_fails_first (ProveInformal "Missing.lean" None None)
            _ "Missing.lean" (world0 (script bar NoOp))).
  - reflexivity.
  - reflexivity.
  - vm_compute. reflexivity.
Defined.

(** The retrieval of the double fails with [disk full]. *)
Lemma retrieval_error_is_reported_witness :
  exists response w',
    invoke (GetProjectResource "p-1")
      (world0 (script foo (Fails (mk_exn OSError "disk full"))))
    = (Return response, w')
    /\ status_metadata response = metadata_of foo
    /\ response_field "solution_error" response = Some (JStr "disk full").
Proof.
  eapply (retrieval_error_is_reported (GetProjectResource "p-1") "p-1"
            (world0 (script foo (Fails (mk_exn OSError "disk full"))))
            foo _ _ "/tmp/tmp0001").
  - reflexivity.
  - reflexivity.
  - reflexivity.
  - reflexivity.
  - reflexivity.
  - reflexivity.
  - reflexivity.
Defined.



(** The copy goes to [out.lean] in the working directory. *)
Lemma solution_is_saved_witness :
  exists response w',
    get_project_status "p-1" (Some "out.lean")
      (world0 (script foo (Writes "theorem foo := trivial")))
    = (Return response, w')
    /\ response_field "solution" response = Some (JStr "theorem foo := trivial")
    /\ response_field "saved_to" response = Some (JStr "/home/out.lean")
    /\ response_field "solution_error" response = None
    /\ read_text "out.lean" (os w') = Return "theorem foo := trivial".
Proof.
  edestruct (solution_is_saved "p-1" "out.lean"
               (world0 (script foo (Writes "theorem foo := trivial")))
               foo (script foo (Writes "theorem foo := trivial"))
               (script foo (Writes "theorem foo := trivial")) "/tmp/tmp0001")
    as (response & w' & Hrun & Hsol & Hsaved & Herr & _ & _ & Hkept);
    [discriminate | reflexivity..|].
  exists response, w'. repeat split; try assumption. apply Hkept. reflexivity.
Defined.

(** C6 as stated fails: the project is complete and the double writes the
    solution, yet with a save path in a directory that does not exist the
    response has no [saved_to] and no file is at the path; with the empty
    save path nothing is written either. *)
Lemma save_path_not_always_written :
  (exists response w',
     get_project_status "p-1" (Some "/nodir/out.lean")
       (world0 (script foo (Writes "theorem foo := trivial")))
     = (Return response, w')
     /\ response_field "solution" response
        = Some (JStr "theorem foo := trivial")
     /\ response_field "saved_to" response = None
     /\ path_exists "/nodir/out.lean" (os w') = false)
  /\ (exists response w',
        get_project_status "p-1" (Some "")
          (world0 (script foo (Writes "theorem foo := trivial")))
        = (Return response, w')
        /\ response_field "solution" response
           = Some (JStr "theorem foo := trivial")
        /\ response_field "saved_to" response = None
        /\ read_text "" (os w') <> Return "theorem foo := trivial").
Proof.
  split.
  - set (run := get_project_status "p-1" (Some "/nodir/out.lean") _).
    exists (match fst run with Return r => r | Raise _ => "" end), (snd run).
    repeat split; vm_compute; reflexivity.
  - set (run := get_project_status "p-1" (Some "") _).
    exists (match fst run with Return r => r | Raise _ => "" end), (snd run).
    repeat split; vm_compute; try reflexivity. discriminate.
Qed.

(** The double lists its two projects. *)
Lemma list_recent_projects_lines_witness :
  exists lines w',
    list_recent_projects 2 None (world0 (script bar NoOp))
    = (Return (join LF lines), w')
    /\ Z.of_nat (length lines) = 2%Z
    /\ forall i, lines !! i =
         (fun p => "Project: " +:+ project_id p
                   +:+ ", Status: " +:+ status_value (status p)
                   +:+ ", Created: " +:+ datetime_str (created_at p))
         <$> [foo; bar] !! i.
Proof.
  eapply (list_recent_projects_lines 2 None (world0 (script bar NoOp))
            [foo; bar] None);
    reflexivity.
Defined.

(** The retrieval of the double does nothing. *)
Lemma noop_retrieval_gives_metadata_only_witness :
  exists response w',
    invoke (GetProjectStatus "p-1" (Some "out.lean")) (world0 (script foo NoOp))
    = (Return response, w')
    /\ loads response = Some (JDict (status_data foo))
    /\ status_metadata response = metadata_of foo
    /\ response_field "solution" response = None
    /\ response_field "solution_error" response = None
    /\ response_field "saved_to" response = None.
Proof.
  eapply (noop_retrieval_gives_metadata_only
            (GetProjectStatus "p-1" (Some "out.lean")) "p-1"
            (world0 (script foo NoOp)) foo _ _ "/tmp/tmp0001");
    reflexivity.
Defined.

(** The copy is to go into a directory that does not exist. *)
Lemma unsaved_copy_is_reported_witness :
  exists response w',
    get_project_status "p-1" (Some "/nodir/out.lean")
      (world0 (script foo (Writes "theorem foo := trivial")))
    = (Return response, w')
    /\ response_field "solution" response = Some (JStr "theorem foo := trivial")
    /\ response_field "solution_error" response
       = Some (JStr "[Errno 2] No such file or directory: '/nodir/out.lean'")
    /\ response_field "saved_to" response = None.
Proof.
  eapply (unsaved_copy_is_reported "p-1" "/nodir/out.lean"
            (world0 (script foo (Writes "theorem foo := trivial")))
            foo _ _ "/tmp/tmp0001");
    [discriminate | reflexivity..].
Defined.

(** *** The further properties on the double *)

(** The double lists [foo] and [bar]. *)
Lemma projects_resource_lists_all_witness :
  exists response w',
    list_projects_resource (world0 (script bar NoOp)) = (Return response, w')
    /\ loads response
       = Some (JList (map (fun p => JDict (project_entry p)) [foo; bar]))
    /\ calls w' = [CallListProjects 20]
    /\ os w' = os (world0 (script bar NoOp)).
Proof.
  eapply (projects_resource_lists_all (world0 (script bar NoOp)) [foo; bar] None).
  reflexivity.
Defined.

(** The listing goes to [/tmp/list.txt]. *)
Lemma list_recent_projects_saved_witness :
  exists w',
    list_recent_projects 10 (Some "/tmp/list.txt") (world0 (script bar NoOp))
    = (Return "Project list saved to /tmp/list.txt", w')
    /\ read_text "/tmp/list.txt" (os w')
       = Return ("Project: p-1, Status: COMPLETE, Created: 2025-01-02 03:04:05"
                 +:+ LF
                 +:+ "Project: p-2, Status: RUNNING, Created: 2025-01-03 10:00:00").
Proof.
  eapply (list_recent_projects_saved 10 "/tmp/list.txt"
            (world0 (script bar NoOp)));
    [discriminate | reflexivity..].
Defined.

(** The listing is to go into a directory that does not exist. *)
Lemma list_recent_projects_save_fails_witness :
  exists w',
    list_recent_projects 10 (Some "/nodir/list.txt") (world0 (script bar NoOp))
    = (Raise (mk_exn FileNotFoundError
                "[Errno 2] No such file or directory: '/nodir/list.txt'"), w')
    /\ calls w' = [CallListProjects 10]
    /\ os w' = os (world0 (script bar NoOp)).
Proof.
  eapply (list_recent_projects_save_fails 10 "/nodir/list.txt"
            (world0 (script bar NoOp)));
    [discriminate | reflexivity..].
Defined.

(** The client of the double is down. *)
Lemma listing_failure_propagates_witness :
  exists w',
    invoke (ListRecentProjects 5 (Some "/tmp/list.txt"))
      (world0 (refusing (mk_exn Exception "service unavailable")))
    = (Raise (mk_exn Exception "service unavailable"), w')
    /\ os w' = os (world0 (refusing (mk_exn Exception "service unavailable")))
    /\ calls w' = [CallListProjects 5].
Proof.
  eapply (listing_failure_propagates (ListRecentProjects 5 (Some "/tmp/list.txt"))
            5 (world0 (refusing (mk_exn Exception "service unavailable"))));
    reflexivity.
Defined.

Lemma fetch_failure_propagates_witness :
  exists w',
    invoke (GetProjectStatus "p-9" (Some "out.lean"))
      (world0 (refusing (mk_exn Exception "no such project")))
    = (Raise (mk_exn Exception "no such project"), w')
    /\ os w' = os (world0 (refusing (mk_exn Exception "no such project")))
    /\ calls w' = [CallFromId "p-9"].
Proof.
  eapply (fetch_failure_propagates (GetProjectStatus "p-9" (Some "out.lean"))
            "p-9" (world0 (refusing (mk_exn Exception "no such project"))));
    reflexivity.
Defined.

Lemma failed_submission_not_monitored_witness :
  exists w',
    invoke (ProveLeanCode "theorem t : True := by sorry" None)
      (world0 (refusing (mk_exn Exception "quota exceeded")))
    = (Raise (mk_exn Exception "quota exceeded"), w')
    /\ monitored_projects w' = ∅
    /\ calls w' =
       [CallProveFromFile
          {| input_file_path := None;
             input_content := Some "theorem t : True := by sorry";
             project_input_type := FORMAL_LEAN;
             formal_input_context := None;
             wait_for_completion := false |}].
Proof.
  eapply (failed_submission_not_monitored
            (ProveLeanCode "theorem t : True := by sorry" None) _
            (world0 (refusing (mk_exn Exception "quota exceeded"))));
    [reflexivity | discriminate | reflexivity].
Defined.

(** A submission, a status call and a listing, from an empty trace. *)
Lemma submissions_never_wait_witness :
  Forall fire_and_return
    (calls (invoke_all
              [ProveInformal "Foo.lean" (Some "Ctx.lean") None;
               GetProjectStatus "p-1" None;
               ListRecentProjects 3 None]
              (world0 (script foo (Writes "theorem foo := trivial"))))).
Proof.
  apply (submissions_never_wait
           [ProveInformal "Foo.lean" (Some "Ctx.lean") None;
            GetProjectStatus "p-1" None;
            ListRecentProjects 3 None]
           (world0 (script foo (Writes "theorem foo := trivial")))).
  constructor.
Defined.

(** [p-1] is submitted, then its status is asked twice and another text is
    submitted. *)
Lemma submitted_id_stays_witness :
  "p-1" ∈ monitored_projects
    (invoke_all
       [ProveLeanFile "Foo.lean" None;
        GetProjectStatus "p-1" (Some "out.lean");
        GetProjectResource "p-1";
        ProveInformalText "every group of order two is abelian" None None]
       (world0 (script foo (Writes "theorem foo := trivial")))).
Proof.
  eapply (submitted_id_stays (ProveLeanFile "Foo.lean" None) _
            (world0 (script foo (Writes "theorem foo := trivial"))) "p-1");
    reflexivity.
Defined.

Lemma file_system_untouched_witness :
  os (snd (invoke (ProveLeanFile "Foo.lean" (Some RequestContext))
             (world0 (script bar NoOp))))
  = os (world0 (script bar NoOp)).
Proof.
  apply (file_system_untouched (ProveLeanFile "Foo.lean" (Some RequestContext))
           (world0 (script bar NoOp))).
  reflexivity.
Defined.

(** [bar] is still running; a save path is given all the same. *)
Lemma no_retrieval_unless_complete_witness :
  exists response w',
    invoke (GetProjectStatus "p-2" (Some "out.lean"))
      (world0 (script bar (Writes "theorem bar := trivial")))
    = (Return response, w')
    /\ loads response = Some (JDict (status_data bar))
    /\ calls w' = [CallFromId "p-2"]
    /\ os w' = os (world0 (script bar (Writes "theorem bar := trivial"))).
Proof.
  eapply (no_retrieval_unless_complete (GetProjectStatus "p-2" (Some "out.lean"))
            "p-2" (world0 (script bar (Writes "theorem bar := trivial"))) bar);
    [reflexivity | reflexivity | discriminate].
Defined.

(** The solution written under [/tmp/tmp0001] is gone after the call. *)
Lemma tempdir_always_removed_witness :
  nodes (os (snd (invoke (GetProjectResource "p-1")
                    (world0 (script foo (Writes "theorem foo := trivial"))))))
  !! "/tmp/tmp0001/solution.lean" = None.
Proof.
  eapply (tempdir_always_removed (GetProjectResource "p-1") "p-1"
            (world0 (script foo (Writes "theorem foo := trivial")))
            foo _ "/tmp/tmp0001");
    reflexivity.
Defined.

(** The response of a status call that saved the solution. *)
Lemma status_response_shape_witness :
  exists extra,
    extras extra
    /\ loads (match fst (invoke (GetProjectStatus "p-1" (Some "out.lean"))
                           (world0 (script foo (Writes "theorem foo := trivial"))))
              with
              | Return response => response
              | Raise _ => ""
              end)
       = Some (JDict (status_data foo ++ extra))
    /\ (dict_get "saved_to" extra = None
        \/ truthy (save_path_of (GetProjectStatus "p-1" (Some "out.lean"))) = true).
Proof.
  eapply (status_response_shape (GetProjectStatus "p-1" (Some "out.lean")) "p-1"
            (world0 (script foo (Writes "theorem foo := trivial"))) foo);
    [reflexivity | reflexivity | vm_compute; reflexivity].
Defined.

(** [tempfile] has no name to draw. *)
Lemma tempdir_failure_reported_witness :
  exists response w',
    invoke (GetProjectStatus "p-1" None)
      (world_on no_tmp_names (script foo (Writes "theorem foo := trivial")))
    = (Return response, w')
    /\ status_metadata response = metadata_of foo
    /\ response_field "solution_error" response
       = Some (JStr "[Errno 17] No usable temporary directory name found")
    /\ response_field "solution" response = None
    /\ calls w' = [CallFromId "p-1"].
Proof.
  eapply (tempdir_failure_reported (GetProjectStatus "p-1" None) "p-1"
            (world_on no_tmp_names (script foo (Writes "theorem foo := trivial")))
            foo _ no_tmp_names
            (mk_exn FileExistsError
               "[Errno 17] No usable temporary directory name found"));
    reflexivity.
Defined.

(** The retrieval is cancelled. *)
Lemma interruption_passes_through_witness :
  exists w',
    invoke (GetProjectStatus "p-1" (Some "out.lean"))
      (world0 (script foo (Fails (mk_exn CancelledError ""))))
    = (Raise (mk_exn CancelledError ""), w')
    /\ calls w'
       = [CallFromId "p-1"; CallGetSolution foo "/tmp/tmp0001/solution.lean"].
Proof.
  eapply (interruption_passes_through (GetProjectStatus "p-1" (Some "out.lean"))
            "p-1" (world0 (script foo (Fails (mk_exn CancelledError ""))))
            foo _ _ "/tmp/tmp0001");
    reflexivity.
Defined.

End Scenarios.
